(** * Flow 2 BLE client: packet codec and session controller

    A shallow embedding of [flow_bt/protocol.py] and [flow_bt/client.py]
    together with the properties of the packet codec, the notification
    dispatch and the session life cycle. *)

From Stdlib Require Import ZArith List Bool Lia.
From Stdlib Require Import Strings.String Strings.Ascii Strings.Byte Floats.SpecFloat.
From Stdlib Require Import DecimalString.
From stdpp Require Import base list.

Local Open Scope Z_scope.

(** ** Python values used by the package *)

Module Py.

(** Exceptions that can travel through the package.  [TransportError msg]
    stands for any [Exception] raised by the BLE stack, [msg] being what
    [str(e)] yields for it. *)
Inductive exn : Type :=
| StructError
| ValueError
| OSError
| OverflowError
| IndexError
| AttributeError
| TransportError (msg : string)
| NotConnectedError
| ConnectionError (cause : exn)
| AuthenticationError (cause : exn).

(** The outcome of evaluating a Python expression: a value or a raised
    exception. *)
Inductive result (A : Type) : Type :=
| Return (a : A)
| Raise (e : exn).
Arguments Return {A} a.
Arguments Raise {A} e.

Definition raises {A} (r : result A) : bool :=
  match r with Return _ => false | Raise _ => true end.

(** [bytes] objects. *)
Definition bytes := list byte.

Definition len (data : bytes) : Z := Z.of_nat (length data).

Definition byte_val (b : byte) : Z := Z.of_N (Byte.to_N b).

(** Index normalisation of a slice bound (step 1), as CPython's
    [PySlice_AdjustIndices] does it. *)
Definition adjust_index (n i : Z) : Z :=
  if i <? 0 then Z.max (i + n) 0 else Z.min i n.

(** [data[start:stop]] *)
Definition slice {A} (data : list A) (start stop : Z) : list A :=
  let n := Z.of_nat (length data) in
  let a := adjust_index n start in
  let b := adjust_index n stop in
  take (Z.to_nat (b - a)) (drop (Z.to_nat a) data).

(** Little-endian value of a byte string. *)
Fixpoint le_value (bs : bytes) : Z :=
  match bs with
  | [] => 0
  | b :: rest => byte_val b + 256 * le_value rest
  end.

(** [struct.unpack('<I', b)[0]]: needs exactly four bytes. *)
Definition unpack_I (b : bytes) : result Z :=
  if (length b =? 4)%nat then Return (le_value b) else Raise StructError.

(** Binary32 parameters: 24 bits of precision, exponent of infinity 128. *)
Definition prec32 : Z := 24.
Definition emax32 : Z := 128.

(** The float denoted by a 32-bit IEEE-754 pattern: bit 31 is the sign,
    bits 30..23 the biased exponent, bits 22..0 the fraction. *)
Definition binary32_of_bits (x : Z) : spec_float :=
  let s := Z.testbit x 31 in
  let e := Z.land (Z.shiftr x 23) 255 in
  let m := Z.land x (2 ^ 23 - 1) in
  if e =? 0 then
    match m with
    | Zpos p => S754_finite s p (-149)
    | _ => S754_zero s
    end
  else if e =? 255 then
    match m with
    | Z0 => S754_infinity s
    | _ => S754_nan
    end
  else
    match m + 2 ^ 23 with
    | Zpos p => S754_finite s p (e - 150)
    | _ => S754_nan
    end.

(** [struct.unpack('<f', b)[0]]: needs exactly four bytes. *)
Definition unpack_f (b : bytes) : result spec_float :=
  if (length b =? 4)%nat then Return (binary32_of_bits (le_value b))
  else Raise StructError.

(** [needle in hay] on strings. *)
Fixpoint contains (needle hay : string) : bool :=
  String.prefix needle hay
  || match hay with
     | EmptyString => false
     | String _ rest => contains needle rest
     end.

(** [str(e)] *)
Fixpoint str (e : exn) : string :=
  match e with
  | StructError => "unpack requires a buffer of 4 bytes"
  | ValueError => "year is out of range"
  | OSError => "Value too large for defined data type"
  | OverflowError => "timestamp out of range for platform time_t"
  | IndexError => "index out of range"
  | AttributeError => "NoneType object has no attribute"
  | TransportError msg => msg
  | NotConnectedError => "Client not connected."
  | ConnectionError cause => "Could not connect: " ++ str cause
  | AuthenticationError cause => "Authentication failed: " ++ str cause
  end%string.

End Py.

(** ** The encoding side of the wire format

    What the device (and the scenarios of the specification) put on the
    wire: the IEEE-754 binary32 pattern of a float and its little-endian
    byte string.  These are not part of the package; they state what
    "the bytes encode [f]" means. *)

Module Wire.
Import Py.

Definition sign_bit (s : bool) : Z := if s then 2 ^ 31 else 0.

(** The binary32 pattern of a float (NaN is the canonical quiet NaN). *)
Definition bits_of_binary32 (f : spec_float) : Z :=
  match f with
  | S754_zero s => sign_bit s
  | S754_infinity s => sign_bit s + 255 * 2 ^ 23
  | S754_nan => 255 * 2 ^ 23 + 2 ^ 22
  | S754_finite s m e =>
      if Zpos m <? 2 ^ 23 then sign_bit s + Zpos m
      else sign_bit s + (e + 150) * 2 ^ 23 + (Zpos m - 2 ^ 23)
  end.

Definition byte_of_Z (z : Z) : byte :=
  match Byte.of_N (Z.to_N (z mod 256)) with
  | Some b => b
  | None => x00
  end.

(** The four little-endian bytes of a 32-bit pattern. *)
Definition u32_le (x : Z) : bytes :=
  [byte_of_Z x; byte_of_Z (x / 2 ^ 8); byte_of_Z (x / 2 ^ 16);
   byte_of_Z (x / 2 ^ 24)].

Definition float32_le (f : spec_float) : bytes := u32_le (bits_of_binary32 f).

(** A float that binary32 can hold. *)
Definition is_binary32 (f : spec_float) : bool := valid_binary prec32 emax32 f.

End Wire.

(** ** protocol.py *)

Module Protocol.
Import Py.

(** [decode_live_pm_value(data)] *)
Definition decode_live_pm_value (data : bytes) : result (option spec_float) :=
  if negb (len data =? 20) then Return None
  else
    match unpack_f (slice data 8 12) with
    | Return v => Return (Some v)
    | Raise StructError => Return None
    | Raise e => Raise e
    end.

Section Host.
(** The host's [datetime] objects and [datetime.fromtimestamp], which
    converts epoch seconds through the platform's [time_t] and
    [localtime]. *)
Variable datetime : Type.
Variable fromtimestamp : Z -> result datetime.

(** [decode_history_timestamp(data, offset)] *)
Definition decode_history_timestamp (data : bytes) (offset : Z)
  : result (option datetime) :=
  if len data <? offset + 4 then Return None
  else
    let attempt :=
      match unpack_I (slice data offset (offset + 4)) with
      | Return timestamp => fromtimestamp timestamp
      | Raise e => Raise e
      end in
    match attempt with
    | Return dt => Return (Some dt)
    | Raise StructError | Raise ValueError | Raise OSError => Return None
    | Raise e => Raise e
    end.
End Host.

End Protocol.

(** ** client.py *)

Module Client.
Import Py.

(** Modelled from the spec: [constants.py] is not part of the sources at
    hand.  The four characteristic ids and the three command byte strings
    are opaque protocol constants, told apart by name only. *)
Inductive characteristic : Type := UUID_AUTH | UUID_COMMAND | UUID_DATA | UUID_BATTERY.
Inductive command : Type := AUTH_KEY | CMD_ACTIVATE | CMD_FETCH_HISTORY.

(** Modelled from the spec: the live-data packet size constant of
    [constants.py] is 20 bytes. *)
Definition LIVE_DATA_PACKET_SIZE : Z := 20.

(** *** The BLE stack, as far as the client sees it *)

(** A [BleakClient] object. *)
Record bleak_client : Type := {
  is_connected : bool;
  notifying : bool;
  authenticated : bool
}.

Definition fresh_client : bleak_client :=
  {| is_connected := false; notifying := false; authenticated := false |}.

Inductive gatt_op : Type :=
| Connect
| Disconnect
| WriteGattChar (c : characteristic) (data : command) (response : bool)
| ReadGattChar (c : characteristic)
| StartNotify (c : characteristic)
| StopNotify (c : characteristic).

(** How the stack answers one operation: it completes (a read delivers
    its payload) or it raises, possibly losing the link on the way. *)
Inductive outcome : Type :=
| Done (payload : bytes)
| Failed (msg : string) (link_lost : bool).

Definition respond (op : gatt_op) (o : outcome) (c : bleak_client) : bleak_client :=
  match o with
  | Done _ =>
      match op with
      | Connect => {| is_connected := true; notifying := false; authenticated := false |}
      | Disconnect => fresh_client
      | WriteGattChar UUID_AUTH AUTH_KEY true =>
          {| is_connected := is_connected c; notifying := notifying c;
             authenticated := true |}
      | StartNotify _ =>
          {| is_connected := is_connected c; notifying := true;
             authenticated := authenticated c |}
      | StopNotify _ =>
          {| is_connected := is_connected c; notifying := false;
             authenticated := authenticated c |}
      | _ => c
      end
  | Failed _ lost => if lost then fresh_client else c
  end.

(** *** What an execution leaves behind *)

Inductive level : Type := DEBUG | INFO | WARNING | ERROR.

(** The callable handed to [start_stream], known by its identity. *)
Definition observer : Type := nat.

Inductive payload : Type :=
| PmValue (v : spec_float)
| RawPacket (data : bytes).

Inductive event : Type :=
| Gatt (op : gatt_op) (o : outcome)
| SetStreaming (b : bool)
| TaskCreated (t : nat)
| TaskCancel (t : nat)
| TaskAwait (t : nat)
| Observe (cb : observer) (msg_type : string) (p : payload)
| Log (lvl : level) (msg : string).

(** *** asyncio tasks running [_keep_alive_loop] *)

(** The three ways out of [_keep_alive_loop]: the [CancelledError]
    handler, the [Exception] handler, and the [while] condition. *)
Inductive exit_path : Type := ByCancellation | ByWriteFailure | ByFlagCleared.

Inductive task_status : Type :=
| Pending
| Finished (why : exit_path).

(** *** A [Flow2Client] in its surroundings *)

Record state : Type := {
  address : string;
  client : option bleak_client;
  is_streaming : bool;
  _keep_alive_task : option nat;
  _data_callback : option observer;
  (** answers the stack will give to the next operations *)
  script : list outcome;
  (** every task created so far, by task id *)
  tasks : list task_status;
  trace : list event
}.

(** [Flow2Client(address)] *)
Definition init (addr : string) (answers : list outcome) : state :=
  {| address := addr; client := None; is_streaming := false;
     _keep_alive_task := None; _data_callback := None;
     script := answers; tasks := []; trace := [] |}.

Definition set_client (c : option bleak_client) (st : state) : state :=
  {| address := address st; client := c; is_streaming := is_streaming st;
     _keep_alive_task := _keep_alive_task st; _data_callback := _data_callback st;
     script := script st; tasks := tasks st; trace := trace st |}.

Definition set_is_streaming (b : bool) (st : state) : state :=
  {| address := address st; client := client st; is_streaming := b;
     _keep_alive_task := _keep_alive_task st; _data_callback := _data_callback st;
     script := script st; tasks := tasks st; trace := trace st |}.

Definition set_keep_alive_task (t : option nat) (st : state) : state :=
  {| address := address st; client := client st; is_streaming := is_streaming st;
     _keep_alive_task := t; _data_callback := _data_callback st;
     script := script st; tasks := tasks st; trace := trace st |}.

Definition set_data_callback (cb : option observer) (st : state) : state :=
  {| address := address st; client := client st; is_streaming := is_streaming st;
     _keep_alive_task := _keep_alive_task st; _data_callback := cb;
     script := script st; tasks := tasks st; trace := trace st |}.

Definition set_script (s : list outcome) (st : state) : state :=
  {| address := address st; client := client st; is_streaming := is_streaming st;
     _keep_alive_task := _keep_alive_task st; _data_callback := _data_callback st;
     script := s; tasks := tasks st; trace := trace st |}.

Definition set_tasks (ts : list task_status) (st : state) : state :=
  {| address := address st; client := client st; is_streaming := is_streaming st;
     _keep_alive_task := _keep_alive_task st; _data_callback := _data_callback st;
     script := script st; tasks := ts; trace := trace st |}.

Definition emit (e : event) (st : state) : state :=
  {| address := address st; client := client st; is_streaming := is_streaming st;
     _keep_alive_task := _keep_alive_task st; _data_callback := _data_callback st;
     script := script st; tasks := tasks st; trace := trace st ++ [e] |}.

(** *** Coroutines: state passing with exceptions

    A method of the client is a function from the state before the call
    to its outcome and the state after it.  The event loop is cooperative:
    what other tasks do while a method is suspended in an [await] is told
    apart as turns of [_keep_alive_loop] and calls of
    [_notification_handler] placed between the methods. *)

Definition M (A : Type) : Type := state -> result A * state.

Definition ret {A} (a : A) : M A := fun st => (Return a, st).

Definition raise {A} (e : exn) : M A := fun st => (Raise e, st).

Definition bind {A B} (m : M A) (k : A -> M B) : M B :=
  fun st =>
    match m st with
    | (Return a, st') => k a st'
    | (Raise e, st') => (Raise e, st')
    end.

(** [try: body / except Exception as e: handler] *)
Definition try_except {A} (body : M A) (handler : exn -> M A) : M A :=
  fun st =>
    match body st with
    | (Return a, st') => (Return a, st')
    | (Raise e, st') => handler e st'
    end.

Definition update (f : state -> state) : M unit := fun st => (Return tt, f st).

Declare Scope coroutine_scope.
Delimit Scope coroutine_scope with co.
Notation "'let*' x ':=' m 'in' k" := (bind m (fun x => k))
  (at level 10, x name, m at level 100, k at level 200) : coroutine_scope.
Notation "m '>>' k" := (bind m (fun _ => k))
  (at level 90, right associativity) : coroutine_scope.
Local Open Scope coroutine_scope.

Definition log (lvl : level) (msg : string) : M unit := update (emit (Log lvl msg)).

(** [self.is_streaming = b] *)
Definition assign_is_streaming (b : bool) : M unit :=
  update (fun st => emit (SetStreaming b) (set_is_streaming b st)).

(** [self._keep_alive_task = t] *)
Definition assign_keep_alive_task (t : option nat) : M unit :=
  update (set_keep_alive_task t).

(** [self._data_callback = cb] *)
Definition assign_data_callback (cb : option observer) : M unit :=
  update (set_data_callback cb).

(** [self.client and self.client.is_connected] *)
Definition connected (st : state) : bool :=
  match client st with
  | Some c => is_connected c
  | None => false
  end.

(** [await self.client.<op>(...)]: the stack consumes its next answer
    (an exhausted script answers with plain completion).  Reaching for an
    attribute of [None] raises [AttributeError]. *)
Definition gatt (op : gatt_op) : M bytes :=
  fun st =>
    match client st with
    | None => (Raise AttributeError, st)
    | Some c =>
        let o := hd (Done []) (script st) in
        let st' := emit (Gatt op o)
                     (set_script (tl (script st)) (set_client (Some (respond op o c)) st)) in
        match o with
        | Done p => (Return p, st')
        | Failed msg _ => (Raise (TransportError msg), st')
        end
    end.

(** [asyncio.create_task(self._keep_alive_loop())] *)
Definition create_task : M nat :=
  fun st =>
    let t := length (tasks st) in
    (Return t, emit (TaskCreated t) (set_tasks (tasks st ++ [Pending]) st)).

Definition finish (t : nat) (why : exit_path) (st : state) : state :=
  set_tasks (<[t := Finished why]> (tasks st)) st.

(** [task.cancel()] followed by [await task] with [CancelledError]
    swallowed: a task still pending leaves its loop through the
    [CancelledError] handler; a finished task is left as it is. *)
Definition cancel_and_await (t : nat) : M unit :=
  update (fun st =>
    let st' := emit (TaskAwait t) (emit (TaskCancel t) st) in
    match tasks st !! t with
    | Some Pending => finish t ByCancellation st'
    | _ => st'
    end).

(** *** The methods of [Flow2Client] *)

(** [connect()] *)
Definition connect : M unit :=
  fun st =>
  (log INFO ("Connecting to " ++ address st ++ "...") >>
   try_except
     (update (set_client (Some fresh_client)) >>
      gatt Connect >>
      log INFO "Connected." >>
      log INFO "Writing authentication key..." >>
      gatt (WriteGattChar UUID_AUTH AUTH_KEY true) >>
      log INFO "Authentication successful.")
     (fun e =>
        log ERROR ("Connection failed: " ++ str e) >>
        (fun st' =>
           match client st' with
           | Some _ => (gatt Disconnect >> ret tt) st'
           | None => ret tt st'
           end) >>
        if contains "Authentication" (str e)
        then raise (AuthenticationError e)
        else raise (ConnectionError e))) st.

(** [stop_stream()] *)
Definition stop_stream : M unit :=
  fun st =>
    if negb (is_streaming st) then ret tt st
    else
      (assign_is_streaming false >>
       (fun st' =>
          match _keep_alive_task st' with
          | Some t => (cancel_and_await t >> assign_keep_alive_task None) st'
          | None => ret tt st'
          end) >>
       (fun st' =>
          if connected st' then
            try_except
              (gatt (StopNotify UUID_DATA) >> ret tt)
              (fun e => log WARNING ("Error stopping notifications: " ++ str e)) st'
          else ret tt st') >>
       log INFO "Streaming stopped.") st.

(** [disconnect()] *)
Definition disconnect : M unit :=
  (fun st => if is_streaming st then stop_stream st else ret tt st) >>
  (fun st =>
     if connected st then
       (log INFO "Disconnecting..." >>
        gatt Disconnect >>
        log INFO "Disconnected.") st
     else ret tt st).

(** [data[0]] *)
Definition first_byte (data : bytes) : M Z :=
  match data with
  | b :: _ => ret (byte_val b)
  | [] => raise IndexError
  end.

(** [read_battery()] *)
Definition read_battery : M (option Z) :=
  fun st =>
    if negb (connected st) then raise NotConnectedError st
    else
      try_except
        (let* data := gatt (ReadGattChar UUID_BATTERY) in
         let* level := first_byte data in
         log INFO "Battery Level" >>
         ret (Some level))
        (fun e =>
           log ERROR ("Could not read battery: " ++ str e) >>
           ret None) st.

(** [start_stream(callback)] *)
Definition start_stream (callback : observer) : M unit :=
  fun st =>
    if negb (connected st) then raise NotConnectedError st
    else
      (assign_data_callback (Some callback) >>
       assign_is_streaming true >>
       log INFO "Subscribing to data notifications..." >>
       gatt (StartNotify UUID_DATA) >>
       log INFO "Sending activation command..." >>
       gatt (WriteGattChar UUID_COMMAND CMD_ACTIVATE true) >>
       let* t := create_task in
       assign_keep_alive_task (Some t) >>
       log INFO "Streaming started.") st.

(** [fetch_history()] *)
Definition fetch_history : M unit :=
  fun st =>
    if negb (connected st) then raise NotConnectedError st
    else
      (log INFO "Sending FETCH HISTORY command..." >>
       gatt (WriteGattChar UUID_COMMAND CMD_FETCH_HISTORY true) >>
       ret tt) st.

(** [_notification_handler(sender, data)] *)
Definition _notification_handler (data : bytes) : M unit :=
  fun st =>
    if len data =? LIVE_DATA_PACKET_SIZE then
      match Protocol.decode_live_pm_value data with
      | Raise e => raise e st
      | Return pm_value =>
          match _data_callback st, pm_value with
          | Some cb, Some v => update (emit (Observe cb "live" (PmValue v))) st
          | _, _ => ret tt st
          end
      end
    else if LIVE_DATA_PACKET_SIZE <? len data then
      match _data_callback st with
      | Some cb => update (emit (Observe cb "history" (RawPacket data))) st
      | None => ret tt st
      end
    else log DEBUG "Unknown packet size" st.

(** One turn of the task [t] running [_keep_alive_loop]: from the
    [while] test to the end of the [sleep] that follows, or out of the
    loop. *)
Definition _keep_alive_loop (t : nat) (st : state) : state :=
  match tasks st !! t with
  | Some Pending =>
      if is_streaming st then
        if connected st then
          match gatt (WriteGattChar UUID_COMMAND CMD_ACTIVATE false) st with
          | (Return _, st') => st'
          | (Raise e, st') =>
              finish t ByWriteFailure
                (snd ((log ERROR ("Keep-alive error: " ++ str e) >>
                       assign_is_streaming false) st'))
          end
        else st
      else finish t ByFlagCleared st
  | _ => st
  end.

(** The event loop resuming the keep-alive tasks [ts] one after the other. *)
Definition wake (ts : list nat) (st : state) : state :=
  fold_left (fun s t => _keep_alive_loop t s) ts st.

(** *** Reading a state *)

(** The session has no open link. *)
Definition is_disconnected (st : state) : bool := negb (connected st).

(** The link is up and the device has taken the key. *)
Definition is_authenticated (st : state) : bool :=
  match client st with
  | Some c => is_connected c && authenticated c
  | None => false
  end.

(** Keep-alive tasks that have not left their loop. *)
Definition is_pending (s : task_status) : bool :=
  match s with Pending => true | Finished _ => false end.

Definition running_tasks (st : state) : nat :=
  length (List.filter is_pending (tasks st)).

(** Keep-alive writes performed so far. *)
(** The session as [disconnect] finds it after its first statement. *)
Definition after_stop (st : state) : state :=
  if is_streaming st then snd (stop_stream st) else st.

(** The events [stop_stream] spends on the stored keep-alive task. *)
Definition cancellation (kt : option nat) : list event :=
  match kt with
  | Some t => [TaskCancel t; TaskAwait t]
  | None => []
  end.

(** The answer the stack gives to the [n]-th operation from now. *)
Definition answer (n : nat) (st : state) : outcome := nth n (script st) (Done []).

(** The next answer of the stack. *)
Definition next_answer (st : state) : outcome := answer 0 st.

(** The fault [connect] raises for a failure [e]. *)
Definition connect_fault (e : exn) : exn :=
  if contains "Authentication" (str e) then AuthenticationError e
  else ConnectionError e.

Definition is_observation (e : event) : bool :=
  match e with Observe _ _ _ => true | _ => false end.

(** The calls made to the observer so far. *)
Definition observations (st : state) : list event :=
  List.filter is_observation (trace st).

Definition is_gatt (e : event) : bool :=
  match e with Gatt _ _ => true | _ => false end.

(** The operations asked of the stack so far. *)
Definition gatt_calls (st : state) : list event :=
  List.filter is_gatt (trace st).

Definition is_keep_alive_write (e : event) : bool :=
  match e with
  | Gatt (WriteGattChar UUID_COMMAND CMD_ACTIVATE false) _ => true
  | _ => false
  end.

Definition keep_alive_writes (st : state) : nat :=
  length (List.filter is_keep_alive_write (trace st)).

End Client.

(** ** Concrete hosts, packets and runs *)

Module Scenario.
Import Py Client.

(** A host with a 64-bit [time_t] running in UTC; a naive datetime is
    known by its POSIX seconds.  Every 32-bit epoch value converts. *)
Definition utc_fromtimestamp (ts : Z) : result Z := Return ts.

(** A host with a 32-bit [time_t]: [datetime.fromtimestamp] raises
    [OverflowError] when the value does not fit the platform [time_t]. *)
Definition time32_fromtimestamp (ts : Z) : result Z :=
  if ts <? 2 ^ 31 then Return ts else Raise OverflowError.

(** 35.5 as a binary32 float: [9306112 * 2^-18]. *)
Definition pm_35_5 : spec_float := S754_finite false 9306112 (-18).

Definition zeros (n : nat) : bytes := repeat x00 n.

(** [[00]*8 + float32_le(35.5) + [00]*8] *)
Definition live_packet : bytes := zeros 8 ++ Wire.float32_le pm_35_5 ++ zeros 8.

(** A 25-byte history block starting with little-endian 100. *)
Definition history_packet : bytes := [x64; x00; x00; x00] ++ zeros 21.

Definition ten_bytes : bytes :=
  [x00; x01; x02; x03; x04; x05; x06; x07; x08; x09].

Definition run {A} (m : M A) (st : state) : state := snd (m st).

Definition device : string := "E4:3D:7F:05:7C:FA".

(** A session that has connected and authenticated, the stack being
    about to answer with [answers]. *)
Definition authenticated_session (answers : list outcome) : state :=
  run connect (init device (Done [] :: Done [] :: answers)).

(** The same session after one [start_stream]. *)
Definition streaming_session (answers : list outcome) : state :=
  run (start_stream 7%nat) (authenticated_session (Done [] :: Done [] :: answers)).

(** ... and after a second [start_stream] without [stop_stream]. *)
Definition restarted_session (answers : list outcome) : state :=
  run (start_stream 7%nat) (streaming_session (Done [] :: Done [] :: answers)).

(** Two keep-alive tasks; the write of task 1 fails, then task 0 wakes. *)
Definition orphan_run : state :=
  wake [1%nat; 0%nat] (restarted_session [Failed "Not connected" true]).

End Scenario.

(** ** The callers of the client: __main__.py and the examples *)

Module Usage.
Import Py Client.
Local Open Scope coroutine_scope.

(** What the event loop may run while a coroutine of the caller sleeps:
    a turn of a keep-alive task, or the delivery of a notification. *)
Inductive loop_event : Type :=
| Turn (t : nat)
| Notification (data : bytes).

(** An exception raised inside the notification callback is reported by
    the event loop; it does not reach the sleeping coroutine. *)
Definition run_event (ev : loop_event) (st : state) : state :=
  match ev with
  | Turn t => _keep_alive_loop t st
  | Notification data => snd (_notification_handler data st)
  end.

(** [await asyncio.sleep(...)], the loop running [evs] meanwhile. *)
Definition sleep (evs : list loop_event) : M unit :=
  update (fun st => fold_left (fun s ev => run_event ev s) evs st).

(** [try: body / finally: final] *)
Definition try_finally {A} (body : M A) (final : M unit) : M A :=
  fun st =>
    match body st with
    | (r, st') =>
        match final st' with
        | (Return _, st'') => (r, st'')
        | (Raise e, st'') => (Raise e, st'')
        end
    end.

(** The callable [on_data] the callers hand to [start_stream]; it only
    prints. *)
Definition on_data : observer := 0%nat.

(** [read_live(address, duration)] of __main__.py, the stack answering with
    [answers] and the loop running [schedule] during the sleep.  What is
    printed is left out, and so is the [KeyboardInterrupt] clause, which is
    about a signal from outside; the [finally] runs in either case. *)
Definition read_live (addr : string) (answers : list outcome)
           (schedule : list loop_event) : result unit * state :=
  try_finally
    (connect >> start_stream on_data >> sleep schedule)
    disconnect
    (init addr answers).

(** [main()] of examples/fetch_history.py: stream, ask for the history,
    listen; any [Exception] is printed and dropped; [disconnect] runs in
    the [finally]. *)
Definition fetch_history_main (answers : list outcome)
           (first second : list loop_event) : result unit * state :=
  try_finally
    (try_except
       (connect >> start_stream on_data >> sleep first >>
        fetch_history >> sleep second)
       (fun _ => ret tt))
    disconnect
    (init "E4:3D:7F:05:7C:FA" answers).

(** The steps a program can take with a client. *)
Inductive call : Type :=
| CallConnect
| CallStartStream (cb : observer)
| CallStopStream
| CallFetchHistory
| CallReadBattery
| CallDisconnect
| Loop (ev : loop_event).

(** The state a step leaves, whether the method returned or raised. *)
Definition perform (c : call) (st : state) : state :=
  match c with
  | CallConnect => snd (connect st)
  | CallStartStream cb => snd (start_stream cb st)
  | CallStopStream => snd (stop_stream st)
  | CallFetchHistory => snd (fetch_history st)
  | CallReadBattery => snd (read_battery st)
  | CallDisconnect => snd (disconnect st)
  | Loop ev => run_event ev st
  end.

Definition session (cs : list call) (st : state) : state :=
  fold_left (fun s c => perform c s) cs st.

(** A program that calls [start_stream] only while no keep-alive task is
    pending. *)
Fixpoint starts_once (cs : list call) (st : state) : bool :=
  match cs with
  | [] => true
  | c :: rest =>
      match c with
      | CallStartStream _ => (running_tasks st =? 0)%nat
      | _ => true
      end && starts_once rest (perform c st)
  end.

(** Every pending keep-alive task is the stored one, and the flag is set. *)
Definition supervised (st : state) : Prop :=
  forall t, tasks st !! t = Some Pending ->
            _keep_alive_task st = Some t /\ is_streaming st = true.

(** The observer call a packet leads to, if any. *)
Definition dispatched (cb : observer) (data : bytes) : list event :=
  if len data =? 20 then
    [Observe cb "live" (PmValue (binary32_of_bits (le_value (slice data 8 12))))]
  else if 20 <? len data then [Observe cb "history" (RawPacket data)]
  else [].

(** Delivering packets one after the other. *)
Definition deliver (packets : list bytes) (st : state) : state :=
  fold_left (fun s data => snd (_notification_handler data s)) packets st.

End Usage.

(** ** tools/data_decoder.py *)

Module Tools.
Import Py.

(** Why a decoding step failed: the [ValueError] of [bytes.fromhex] with
    the position it reports, or the [struct.error] of [struct.unpack]. *)
Inductive failure : Type :=
| NonHexadecimal (position : nat)
| ShortBuffer.

Inductive outcome (A : Type) : Type :=
| Ok (a : A)
| Fail (f : failure).
Arguments Ok {A} a.
Arguments Fail {A} f.

(** [str(e)] for these two exceptions. *)
Definition message (f : failure) : string :=
  match f with
  | NonHexadecimal position =>
      "non-hexadecimal number found in fromhex() arg at position "
      ++ NilZero.string_of_uint (Nat.to_uint position)
  | ShortBuffer => "unpack requires a buffer of 4 bytes"
  end%string.

(** ASCII whitespace, which [bytes.fromhex] skips between bytes. *)
Definition is_space (c : ascii) : bool :=
  match N_of_ascii c with
  | 9%N | 10%N | 11%N | 12%N | 13%N | 32%N => true
  | _ => false
  end.

Definition hex_digit (c : ascii) : option Z :=
  let n := Z.of_N (N_of_ascii c) in
  if (48 <=? n) && (n <=? 57) then Some (n - 48)
  else if (97 <=? n) && (n <=? 102) then Some (n - 87)
  else if (65 <=? n) && (n <=? 70) then Some (n - 55)
  else None.

(** Position of the first character outside ASCII, which [bytes.fromhex]
    looks for before anything else. *)
Fixpoint first_non_ascii (position : nat) (s : list ascii) : option nat :=
  match s with
  | [] => None
  | c :: rest =>
      if (128 <=? N_of_ascii c)%N then Some position
      else first_non_ascii (S position) rest
  end.

Fixpoint fromhex_from (position : nat) (s : list ascii) : outcome bytes :=
  match s with
  | [] => Ok []
  | c :: rest =>
      if is_space c then fromhex_from (S position) rest
      else
        match hex_digit c with
        | None => Fail (NonHexadecimal position)
        | Some top =>
            match rest with
            | [] => Fail (NonHexadecimal (S position))
            | d :: rest' =>
                match hex_digit d with
                | None => Fail (NonHexadecimal (S position))
                | Some bot =>
                    match fromhex_from (S (S position)) rest' with
                    | Ok bs => Ok (Wire.byte_of_Z (16 * top + bot) :: bs)
                    | Fail f => Fail f
                    end
                end
            end
        end
  end.

(** [bytes.fromhex(s)] *)
Definition fromhex (s : string) : outcome bytes :=
  match first_non_ascii 0 (list_ascii_of_string s) with
  | Some position => Fail (NonHexadecimal position)
  | None => fromhex_from 0 (list_ascii_of_string s)
  end.

(** [s[start:stop]] on a string. *)
Definition str_slice (s : string) (start stop : Z) : string :=
  string_of_list_ascii (slice (list_ascii_of_string s) start stop).

(** The two byte orders the docstring of [hex_to_float] allows: ['<'] and
    ['>']. *)
Inductive byte_order : Type := LittleEndian | BigEndian.

(** [struct.unpack(f'{byte_order}f', byte_data)[0]] *)
Definition unpack_float (order : byte_order) (byte_data : bytes) : outcome spec_float :=
  if (length byte_data =? 4)%nat then
    Ok (binary32_of_bits
          (le_value match order with
                    | LittleEndian => byte_data
                    | BigEndian => rev byte_data
                    end))
  else Fail ShortBuffer.

(** [hex_to_float(hex_string, byte_order)] *)
Definition hex_to_float (hex_string : string) (order : byte_order) : outcome spec_float :=
  match fromhex hex_string with
  | Ok byte_data => unpack_float order byte_data
  | Fail f => Fail f
  end.

(** The values a result dict holds. *)
Inductive value : Type :=
| VInt (n : Z)
| VFloat (x : spec_float)
| VStr (s : string).

(** A dict with string keys, in insertion order. *)
Definition dict : Type := list (string * value).

Definition get (key : string) (d : dict) : option value :=
  match List.find (fun kv => String.eqb (fst kv) key) d with
  | Some kv => Some (snd kv)
  | None => None
  end.

Definition decoding_failed (f : failure) (hex_payload : string) : dict :=
  [("error", VStr ("Decoding failed: " ++ message f)); ("raw", VStr hex_payload)]%string.

(** [decode_20_byte_payload(hex_payload)] *)
Definition decode_20_byte_payload (hex_payload : string) : dict :=
  if negb (String.length hex_payload =? 40)%nat then
    [("error", VStr "Invalid payload length"); ("raw", VStr hex_payload)]%string
  else
    let value2_hex := str_slice hex_payload 18 26 in
    match hex_to_float value2_hex LittleEndian with
    | Fail f => decoding_failed f hex_payload
    | Ok decoded_value_2 =>
        let timestamp_hex := str_slice hex_payload 2 10 in
        match fromhex timestamp_hex with
        | Fail f => decoding_failed f hex_payload
        | Ok byte_data =>
            if (length byte_data =? 4)%nat then
              [("timestamp_counter", VInt (le_value byte_data));
               ("raw_value_2_hex", VStr value2_hex);
               ("decoded_float_2", VFloat decoded_value_2);
               ("raw_payload", VStr hex_payload)]%string
            else decoding_failed ShortBuffer hex_payload
        end
    end.

(** What [bytes.hex()] writes: two lower-case digits a byte.  Not part of
    the tool; it says which payloads are the hex of a packet. *)
Definition hex_char (n : Z) : ascii :=
  nth (Z.to_nat n) (list_ascii_of_string "0123456789abcdef") "0"%char.

Definition hex_byte (b : byte) : list ascii :=
  [hex_char (byte_val b / 16); hex_char (byte_val b mod 16)].

Definition hex (data : bytes) : string :=
  string_of_list_ascii (flat_map hex_byte data).

End Tools.

(** ** Properties of the packet codec *)

Section StringFacts.
Import Py.

Lemma prefix_spec (p s : string) :
  String.prefix p s = true <-> exists rest, s = (p ++ rest)%string.
Proof.
  revert s. induction p as [|a p IH]; intros s.
  - cbn. split; [exists s; reflexivity | now destruct s].
  - destruct s as [|b s]; [split; [discriminate | intros [r [=]]] |].
    cbn [String.prefix String.append].
    destruct (Ascii.ascii_dec a b) as [->|Hne].
    + rewrite IH. split; intros [r E]; exists r; [now rewrite E | now injection E].
    + split; [discriminate | intros [r E]; congruence].
Qed.

(** [contains] is the substring test of Python's [in]. *)
Lemma contains_spec (needle hay : string) :
  contains needle hay = true
  <-> exists before after, hay = (before ++ needle ++ after)%string.
Proof.
  induction hay as [|c hay IH]; cbn [contains]; rewrite orb_true_iff, prefix_spec.
  - split.
    + intros [[r E]|H]; [| discriminate]. exists ""%string, r. exact E.
    + intros (b & a & E). left. destruct b; [exists a; exact E | discriminate].
  - rewrite IH. split.
    + intros [[r E]|(b & a & E)].
      * exists ""%string, r. exact E.
      * exists (String c b), a. cbn. now rewrite E.
    + intros (b & a & E). destruct b as [|c' b]; cbn in E.
      * left. exists a. exact E.
      * right. injection E as _ E. exists b, a. exact E.
Qed.
End StringFacts.

Section CodecFacts.
Import Py Wire Protocol.

Lemma byte_val_range (b : byte) : 0 <= byte_val b <= 255.
Proof.
  unfold byte_val. pose proof (Byte.to_N_bounded b) as H.
  split; [apply N2Z.is_nonneg |].
  change 255 with (Z.of_N 255). now apply N2Z.inj_le.
Qed.

Lemma byte_val_of_Z (z : Z) : byte_val (byte_of_Z z) = z mod 256.
Proof.
  assert (Hr : 0 <= z mod 256 < 256) by (apply Z.mod_pos_bound; lia).
  unfold byte_of_Z, byte_val.
  destruct (Byte.of_N (Z.to_N (z mod 256))) as [b|] eqn:E.
  - apply Byte.to_of_N in E. rewrite E. apply Z2N.id. lia.
  - apply Byte.of_N_None_iff in E. lia.
Qed.

Lemma le_value_range (bs : bytes) : 0 <= le_value bs < 256 ^ Z.of_nat (length bs).
Proof.
  induction bs as [|b bs IH]; cbn [le_value length].
  - simpl. lia.
  - pose proof (byte_val_range b). rewrite Nat2Z.inj_succ, Z.pow_succ_r by lia. nia.
Qed.

Lemma le_value_u32_le (x : Z) : 0 <= x < 2 ^ 32 -> le_value (u32_le x) = x.
Proof.
  intros Hx. unfold u32_le. cbn [le_value].
  rewrite !byte_val_of_Z.
  change (2 ^ 8) with 256. change (2 ^ 16) with 65536.
  change (2 ^ 24) with 16777216. change (2 ^ 32) with 4294967296 in Hx.
  Z.div_mod_to_equations. lia.
Qed.

(** A slice at a position inside the data is the plain sub-list. *)
Lemma slice_middle {A} (pre w suf : list A) :
  slice (pre ++ w ++ suf) (Z.of_nat (length pre))
        (Z.of_nat (length pre) + Z.of_nat (length w)) = w.
Proof.
  unfold slice, adjust_index. rewrite !length_app.
  set (p := length pre). set (k := length w). set (q := length suf).
  destruct (Z.ltb_spec (Z.of_nat p) 0) as [Hn|_]; [lia |].
  destruct (Z.ltb_spec (Z.of_nat p + Z.of_nat k) 0) as [Hn|_]; [lia |].
  rewrite !Z.min_l by lia.
  replace (Z.to_nat (Z.of_nat p + Z.of_nat k - Z.of_nat p)) with k by lia.
  rewrite Nat2Z.id. subst p k.
  rewrite drop_app_length. apply take_app_length.
Qed.

Lemma slice_length {A} (data : list A) (a b : Z) :
  0 <= a <= b -> b <= Z.of_nat (length data) ->
  Z.of_nat (length (slice data a b)) = b - a.
Proof.
  intros Hab Hb. unfold slice, adjust_index.
  destruct (Z.ltb_spec a 0) as [Hn|_]; [lia |].
  destruct (Z.ltb_spec b 0) as [Hn|_]; [lia |].
  rewrite !Z.min_l by lia.
  rewrite length_take, length_drop. lia.
Qed.

(** The number of binary digits brackets a positive number. *)
Lemma digits2_pos_size (m : positive) : digits2_pos m = Pos.size m.
Proof. induction m as [m IH|m IH|]; simpl; now rewrite ?IH. Qed.

Lemma digits2_pos_bounds (m : positive) :
  2 ^ (Zpos (digits2_pos m) - 1) <= Zpos m < 2 ^ Zpos (digits2_pos m).
Proof.
  rewrite digits2_pos_size.
  pose proof (Pos.size_gt m) as Hgt. pose proof (Pos.size_le m) as Hle.
  apply Pos2Z.pos_lt_pos in Hgt. apply Pos2Z.pos_le_pos in Hle.
  rewrite Pos2Z.inj_pow in Hgt, Hle.
  split; [| exact Hgt].
  set (d := Zpos (Pos.size m)) in *.
  assert (Hd : 2 ^ d = 2 * 2 ^ (d - 1)).
  { rewrite <- Z.pow_succ_r by (subst d; lia). f_equal. lia. }
  lia.
Qed.

(** What validity in binary32 says about mantissa and exponent. *)
Lemma binary32_finite_shape (m : positive) (e : Z) :
  bounded prec32 emax32 m e = true ->
  (Zpos m < 2 ^ 23 /\ e = -149) \/
  (2 ^ 23 <= Zpos m < 2 ^ 24 /\ -149 <= e <= 104).
Proof.
  unfold bounded, canonical_mantissa, fexp, emin, prec32, emax32.
  intros H. apply andb_true_iff in H as [Hc He].
  apply Z.eqb_eq in Hc. apply Z.leb_le in He.
  pose proof (digits2_pos_bounds m) as [Hlo Hhi].
  set (d := Zpos (digits2_pos m)) in *.
  assert (Hd : 0 < d) by (subst d; lia).
  destruct (Z.le_gt_cases d 23) as [Hs|Hs].
  - left. split; [| lia].
    apply Z.lt_le_trans with (2 ^ d); [exact Hhi |].
    apply Z.pow_le_mono_r; lia.
  - right. assert (d = 24) by lia. subst d.
    replace (Zpos (digits2_pos m)) with 24 in * by lia.
    change (24 - 1) with 23 in Hlo. lia.
Qed.

Lemma bits_of_binary32_range (f : spec_float) :
  is_binary32 f = true -> 0 <= bits_of_binary32 f < 2 ^ 32.
Proof.
  destruct f as [s|s| |s m e]; cbn [bits_of_binary32 is_binary32 valid_binary];
    unfold sign_bit; intros H.
  - destruct s; lia.
  - destruct s; lia.
  - lia.
  - apply binary32_finite_shape in H.
    change (2 ^ 23) with 8388608 in *. change (2 ^ 24) with 16777216 in *.
    change (2 ^ 31) with 2147483648. change (2 ^ 32) with 4294967296.
    destruct (Z.ltb_spec (Zpos m) 8388608); destruct s; lia.
Qed.
End CodecFacts.

Section Binary32.
Import Py Wire.

(** Reading the three fields back out of an assembled pattern. *)
Lemma binary32_fields (s : bool) (e m : Z) :
  0 <= e < 256 -> 0 <= m < 2 ^ 23 ->
  let x := sign_bit s + e * 2 ^ 23 + m in
  Z.testbit x 31 = s /\
  Z.land (Z.shiftr x 23) 255 = e /\
  Z.land x (2 ^ 23 - 1) = m.
Proof.
  intros He Hm x.
  change 255 with (Z.ones 8). change (2 ^ 23 - 1) with (Z.ones 23).
  rewrite !Z.land_ones, Z.shiftr_div_pow2 by lia.
  assert (Hs : Z.b2z (Z.testbit x 31) = Z.b2z s).
  { rewrite Z.testbit_spec' by lia. subst x. unfold sign_bit.
    change (2 ^ 23) with 8388608 in *. change (2 ^ 31) with 2147483648.
    destruct s; cbn [Z.b2z]; Z.div_mod_to_equations; lia. }
  split; [| split].
  - destruct (Z.testbit x 31), s; cbn in Hs; congruence.
  - subst x. unfold sign_bit.
    change (2 ^ 23) with 8388608 in *. change (2 ^ 31) with 2147483648.
    change (2 ^ 8) with 256.
    destruct s; Z.div_mod_to_equations; lia.
  - subst x. unfold sign_bit.
    change (2 ^ 23) with 8388608 in *. change (2 ^ 31) with 2147483648.
    destruct s; Z.div_mod_to_equations; lia.
Qed.

(** Decoding the pattern of a binary32 float gives the float back. *)
Lemma binary32_of_bits_of_binary32 (f : spec_float) :
  is_binary32 f = true -> binary32_of_bits (bits_of_binary32 f) = f.
Proof.
  destruct f as [s|s| |s m e]; cbn [bits_of_binary32 is_binary32 valid_binary]; intros H.
  - destruct (binary32_fields s 0 0) as (Hs & He & Hm); [lia | lia |].
    cbn zeta in *. rewrite Z.mul_0_l, !Z.add_0_r in *.
    unfold binary32_of_bits. rewrite Hs, He, Hm. reflexivity.
  - destruct (binary32_fields s 255 0) as (Hs & He & Hm); [lia | lia |].
    cbn zeta in *. rewrite !Z.add_0_r in *.
    unfold binary32_of_bits. rewrite Hs, He, Hm. reflexivity.
  - reflexivity.
  - apply binary32_finite_shape in H.
    destruct (Z.ltb_spec (Zpos m) (2 ^ 23)) as [Hlt|Hge].
    + destruct H as [[_ ->]|[[Hc _] _]]; [| lia].
      destruct (binary32_fields s 0 (Zpos m)) as (Hs & He & Hm); [lia | lia |].
      cbn zeta in *. rewrite Z.mul_0_l, !Z.add_0_r in *.
      unfold binary32_of_bits. rewrite Hs, He, Hm. reflexivity.
    + destruct H as [[Hc _]|[Hm He]]; [lia |].
      destruct (binary32_fields s (e + 150) (Zpos m - 2 ^ 23)) as (Hs & Hx & Hf);
        [lia | change (2 ^ 24) with (2 * 2 ^ 23) in Hm; lia |].
      cbn zeta in *.
      unfold binary32_of_bits. rewrite Hs, Hx, Hf.
      destruct (Z.eqb_spec (e + 150) 0) as [Hz|_]; [lia |].
      destruct (Z.eqb_spec (e + 150) 255) as [Hz|_]; [lia |].
      replace (Zpos m - 2 ^ 23 + 2 ^ 23) with (Zpos m) by lia.
      f_equal. lia.
Qed.
End Binary32.

(** ** The decoders of protocol.py *)

Section Decoders.
Import Py Wire Protocol Scenario.

(** On twenty bytes the live decoder always produces the float whose
    pattern sits at offsets 8 to 11. *)
Lemma decode_live_pm_value_20 (data : bytes) :
  len data = 20 ->
  decode_live_pm_value data
  = Return (Some (binary32_of_bits (le_value (slice data 8 12)))).
Proof.
  intros H. unfold decode_live_pm_value, unpack_f.
  rewrite H. cbn [Z.eqb Pos.eqb negb].
  assert (HL : Z.of_nat (length (slice data 8 12)) = 12 - 8)
    by (apply slice_length; unfold len in H; lia).
  replace (length (slice data 8 12)) with 4%nat by lia.
  reflexivity.
Qed.

(** C2.  Twenty bytes whose offsets 8 to 11 hold the little-endian
    binary32 encoding of [f] decode to exactly [f] (on any twenty bytes the
    result is the float denoted by the pattern at offsets 8 to 11); an
    input whose length is not 20 decodes to [None]; and
    [decode_live_pm_value] never raises. *)
Theorem decode_live_pm_value_spec (pre suf data : bytes) (f : spec_float) :
  (length pre = 8%nat -> length suf = 8%nat -> is_binary32 f = true ->
   decode_live_pm_value (pre ++ float32_le f ++ suf) = Return (Some f)) /\
  (len data = 20 ->
   decode_live_pm_value data
   = Return (Some (binary32_of_bits (le_value (slice data 8 12))))) /\
  (len data <> 20 -> decode_live_pm_value data = Return None) /\
  raises (decode_live_pm_value data) = false.
Proof.
  split; [| split; [| split]].
  - intros Hp Hs Hf.
    rewrite decode_live_pm_value_20
      by (unfold len; rewrite !length_app, Hp, Hs; reflexivity).
    pose proof (slice_middle pre (float32_le f) suf) as Hm.
    rewrite Hp in Hm. change (Z.of_nat 8 + Z.of_nat (length (float32_le f))) with 12 in Hm.
    change (Z.of_nat 8) with 8 in Hm. rewrite Hm.
    unfold float32_le.
    rewrite le_value_u32_le by (apply bits_of_binary32_range; exact Hf).
    now rewrite binary32_of_bits_of_binary32.
  - apply decode_live_pm_value_20.
  - intros Hn. unfold decode_live_pm_value.
    destruct (Z.eqb_spec (len data) 20); [contradiction | reflexivity].
  - destruct (Z.eq_dec (len data) 20) as [H|H].
    + now rewrite decode_live_pm_value_20.
    + unfold decode_live_pm_value.
      destruct (Z.eqb_spec (len data) 20); [contradiction | reflexivity].
Qed.

Lemma decode_live_pm_value_spec_witness :
  decode_live_pm_value live_packet = Return (Some pm_35_5) /\
  decode_live_pm_value history_packet = Return None.
Proof.
  split.
  - apply (proj1 (decode_live_pm_value_spec (zeros 8) (zeros 8) [] pm_35_5));
      reflexivity.
  - apply (proj1 (proj2 (proj2 (decode_live_pm_value_spec [] [] history_packet pm_35_5)))).
    vm_compute. discriminate.
Defined.

Section AnyHost.
Variable datetime : Type.
Variable fromtimestamp : Z -> result datetime.

(** Whenever the slice taken is not four bytes long, the decoder gives
    [None]: the [struct.error] is absorbed. *)
Lemma decode_history_timestamp_short_slice (data : bytes) (offset : Z) :
  length (slice data offset (offset + 4)) <> 4%nat ->
  decode_history_timestamp datetime fromtimestamp data offset = Return None.
Proof.
  intros H. unfold decode_history_timestamp, unpack_I.
  destruct (len data <? offset + 4); [reflexivity |].
  destruct (Nat.eqb_spec (length (slice data offset (offset + 4))) 4);
    [contradiction | reflexivity].
Qed.

(** On a host whose conversion fails with [ValueError] or [OSError]
    only, the decoder never raises, whatever the offset. *)
Lemma decode_history_timestamp_total (data : bytes) (offset : Z) :
  (forall ts e, fromtimestamp ts = Raise e -> e = ValueError \/ e = OSError) ->
  raises (decode_history_timestamp datetime fromtimestamp data offset) = false.
Proof.
  intros Hhost. unfold decode_history_timestamp, unpack_I.
  destruct (len data <? offset + 4); [reflexivity |].
  destruct (length (slice data offset (offset + 4)) =? 4)%nat; [| reflexivity].
  destruct (fromtimestamp _) as [dt|e] eqn:E; [reflexivity |].
  destruct (Hhost _ _ E) as [-> | ->]; reflexivity.
Qed.

(** C6, amended.  Input shorter than [offset + 4] decodes to [None].
    At a non-negative offset with four bytes [w] available, the decoder
    hands the little-endian unsigned value of [w] to the host: it
    returns the host's datetime when the conversion succeeds and [None]
    when the conversion fails with [ValueError] or [OSError]. *)
Theorem decode_history_timestamp_spec (pre w suf data : bytes) (offset : Z) :
  (len data < offset + 4 -> decode_history_timestamp datetime fromtimestamp data offset = Return None) /\
  (length w = 4%nat ->
   0 <= le_value w < 2 ^ 32 /\
   (forall dt, fromtimestamp (le_value w) = Return dt ->
               decode_history_timestamp datetime fromtimestamp (pre ++ w ++ suf) (len pre) = Return (Some dt)) /\
   (fromtimestamp (le_value w) = Raise ValueError \/
    fromtimestamp (le_value w) = Raise OSError ->
    decode_history_timestamp datetime fromtimestamp (pre ++ w ++ suf) (len pre) = Return None)).
Proof.
  split.
  - intros H. unfold decode_history_timestamp.
    destruct (Z.ltb_spec (len data) (offset + 4)); [reflexivity | lia].
  - intros Hw.
    assert (Hdec : decode_history_timestamp datetime fromtimestamp (pre ++ w ++ suf) (len pre)
                   = match fromtimestamp (le_value w) with
                     | Return dt => Return (Some dt)
                     | Raise StructError | Raise ValueError | Raise OSError => Return None
                     | Raise e => Raise e
                     end).
    { unfold decode_history_timestamp, unpack_I, len.
      destruct (Z.ltb_spec (Z.of_nat (length (pre ++ w ++ suf)))
                  (Z.of_nat (length pre) + 4)) as [Hlt|_].
      { rewrite !length_app, Hw in Hlt. lia. }
      pose proof (slice_middle pre w suf) as Hm. rewrite Hw in Hm.
      change (Z.of_nat 4) with 4 in Hm. rewrite Hm, Hw. reflexivity. }
    split; [| split].
    + pose proof (le_value_range w) as Hr. rewrite Hw in Hr.
      change (256 ^ Z.of_nat 4) with (2 ^ 32) in Hr. exact Hr.
    + intros dt E. rewrite Hdec, E. reflexivity.
    + intros [E|E]; rewrite Hdec, E; reflexivity.
Qed.
End AnyHost.

Lemma decode_history_timestamp_spec_witness :
  decode_history_timestamp Z utc_fromtimestamp history_packet 0 = Return (Some 100) /\
  decode_history_timestamp Z utc_fromtimestamp [x64; x00] 0 = Return None.
Proof.
  split.
  - apply (proj2 (decode_history_timestamp_spec Z utc_fromtimestamp
                    [] [x64; x00; x00; x00] (zeros 21) [] 0)); reflexivity.
  - apply (proj1 (decode_history_timestamp_spec Z utc_fromtimestamp
                    [] [] [] [x64; x00] 0)). reflexivity.
Defined.

(** C6 as stated fails at a negative offset: ten bytes are at least
    [-2 + 4] long, the host converts every epoch value, and yet the
    decoder returns [None], because [data[-2:2]] is empty. *)
Lemma decode_history_timestamp_negative_offset :
  -2 + 4 <= len ten_bytes /\
  slice ten_bytes (-2) (-2 + 4) = [] /\
  decode_history_timestamp Z utc_fromtimestamp ten_bytes (-2) = Return None.
Proof. repeat split. vm_compute. discriminate. Qed.

(** C10, at the failing input.  On a host with a 32-bit [time_t] the
    conversion of [0xFFFFFFFF] raises [OverflowError], which the handler
    [except (struct.error, ValueError, OSError)] lets through. *)
Theorem decode_history_timestamp_overflow_escapes :
  decode_history_timestamp Z time32_fromtimestamp [xff; xff; xff; xff] 0
  = Raise OverflowError.
Proof. reflexivity. Qed.

(** The part of C10 about negative offsets: the length test can pass
    while the slice is short, and then the result is [None]. *)
Lemma decode_history_timestamp_negative_offset_none
      (datetime : Type) (fromtimestamp : Z -> result datetime)
      (data : bytes) (offset : Z) :
  -4 <= offset < 0 ->
  (length (slice data offset (offset + 4)) < 4)%nat /\
  decode_history_timestamp datetime fromtimestamp data offset = Return None.
Proof.
  intros Ho.
  assert (HL : (length (slice data offset (offset + 4)) < 4)%nat).
  { unfold slice, adjust_index.
    destruct (Z.ltb_spec offset 0) as [_|Hn]; [| lia].
    destruct (Z.ltb_spec (offset + 4) 0) as [Hn|_]; [lia |].
    rewrite length_take, length_drop. lia. }
  split; [exact HL |].
  apply decode_history_timestamp_short_slice. lia.
Qed.
End Decoders.

(** ** Notification dispatch *)

Section Dispatch.
Import Py Protocol Client Scenario.

Lemma observations_emit (e : event) (st : state) :
  observations (emit e st)
  = observations st ++ (if is_observation e then [e] else []).
Proof.
  unfold observations, emit. cbn [trace]. rewrite List.filter_app.
  cbn [List.filter]. now destruct (is_observation e).
Qed.

(** C1.  With an observer registered, [_notification_handler] looks at
    the length only.  Exactly 20 bytes: the live decoder runs, and the
    observer is called once with ["live"] and the decoded float (and not
    at all if the decoder gave [None]).  More than 20 bytes: the observer
    is called once with ["history"] and the very bytes received.  Fewer
    than 20 bytes: nothing but a debug line, and no observer call. *)
Theorem notification_handler_routes_by_length
        (st : state) (data : bytes) (cb : observer) :
  _data_callback st = Some cb ->
  (len data = 20 ->
   match decode_live_pm_value data with
   | Return (Some v) =>
       _notification_handler data st
       = (Return tt, emit (Observe cb "live" (PmValue v)) st)
   | Return None => _notification_handler data st = (Return tt, st)
   | Raise _ => False
   end) /\
  (20 < len data ->
   _notification_handler data st
   = (Return tt, emit (Observe cb "history" (RawPacket data)) st)) /\
  (len data < 20 ->
   exists st', _notification_handler data st = (Return tt, st') /\
               observations st' = observations st).
Proof.
  intros Hcb. unfold _notification_handler, LIVE_DATA_PACKET_SIZE.
  split; [| split].
  - intros H. rewrite decode_live_pm_value_20 by exact H.
    rewrite H, Hcb. reflexivity.
  - intros H.
    destruct (Z.eqb_spec (len data) 20) as [E|_]; [lia |].
    destruct (Z.ltb_spec 20 (len data)) as [_|E]; [| lia].
    rewrite Hcb. reflexivity.
  - intros H.
    destruct (Z.eqb_spec (len data) 20) as [E|_]; [lia |].
    destruct (Z.ltb_spec 20 (len data)) as [E|_]; [lia |].
    eexists. split; [reflexivity |].
    rewrite observations_emit. cbn. apply app_nil_r.
Qed.

Lemma notification_handler_routes_by_length_witness :
  _notification_handler live_packet (streaming_session [])
  = (Return tt, emit (Observe 7%nat "live" (PmValue pm_35_5)) (streaming_session [])) /\
  _notification_handler history_packet (streaming_session [])
  = (Return tt,
     emit (Observe 7%nat "history" (RawPacket history_packet)) (streaming_session [])).
Proof.
  split.
  - apply (proj1 (notification_handler_routes_by_length
                    (streaming_session []) live_packet 7%nat eq_refl)).
    reflexivity.
  - apply (proj1 (proj2 (notification_handler_routes_by_length
                           (streaming_session []) history_packet 7%nat eq_refl))).
    reflexivity.
Defined.

(** Without a registered observer no packet leads to an observer call. *)
Lemma notification_handler_unregistered (st : state) (data : bytes) :
  _data_callback st = None ->
  observations (snd (_notification_handler data st)) = observations st.
Proof.
  intros Hcb. unfold _notification_handler.
  destruct (len data =? LIVE_DATA_PACKET_SIZE).
  - destruct (decode_live_pm_value data) as [[v|]|e]; rewrite ?Hcb; reflexivity.
  - destruct (LIVE_DATA_PACKET_SIZE <? len data); rewrite ?Hcb; [reflexivity |].
    unfold log, update. cbn [snd]. rewrite observations_emit. apply app_nil_r.
Qed.

(** Dispatch does not consult the streaming flag. *)
Lemma notification_handler_ignores_flag (st : state) (data : bytes) (b : bool) :
  _notification_handler data (set_is_streaming b st)
  = (fst (_notification_handler data st),
     set_is_streaming b (snd (_notification_handler data st))).
Proof.
  unfold _notification_handler.
  destruct (len data =? LIVE_DATA_PACKET_SIZE).
  - destruct (decode_live_pm_value data) as [[v|]|e]; cbn;
      destruct (_data_callback st); reflexivity.
  - destruct (LIVE_DATA_PACKET_SIZE <? len data); cbn;
      [destruct (_data_callback st) |]; reflexivity.
Qed.
End Dispatch.

(** ** The session controller *)

(** Unfolding the coroutine combinators. *)
Ltac unfold_co :=
  unfold Client.log, Client.gatt, Client.try_except, Client.bind, Client.ret,
    Client.raise, Client.update, Client.connected in *.

Ltac by_cases_on_script sc :=
  destruct sc as [|[?|? ?] [|[?|? ?] [|[?|? ?] sc]]]; cbn in *;
  try discriminate; try congruence.

Section Teardown.
Import Py Client Scenario.

Lemma stop_stream_returns (st : state) :
  exists st', stop_stream st = (Return tt, st') /\ is_streaming st' = false.
Proof.
  destruct st as [addr cl fl kt cb sc ts tr].
  unfold stop_stream, assign_is_streaming, assign_keep_alive_task,
    cancel_and_await, finish.
  unfold_co. cbn.
  destruct fl; cbn; [| eauto].
  destruct kt as [t|]; cbn.
  - destruct (ts !! t) as [[|w]|]; cbn; destruct cl as [[[] nt au]|]; cbn;
      try destruct sc as [|[p|msg lost] sc]; cbn; eauto.
  - destruct cl as [[[] nt au]|]; cbn;
      try destruct sc as [|[p|msg lost] sc]; cbn; eauto.
Qed.

Lemma stop_stream_not_streaming (st : state) :
  is_streaming st = false -> stop_stream st = (Return tt, st).
Proof. intros H. unfold stop_stream. rewrite H. reflexivity. Qed.

(** C7.  [stop_stream] on a session that is not streaming changes
    nothing and returns; it never raises and a second call in a row is a
    no-op; on a streaming session the flag is cleared first, then the
    keep-alive task is cancelled and awaited, which leaves no stored task
    pending; and a failing unsubscribe is logged as a warning, not
    raised. *)
Theorem stop_stream_idempotent (st : state) :
  (is_streaming st = false -> stop_stream st = (Return tt, st)) /\
  (exists st', stop_stream st = (Return tt, st') /\ is_streaming st' = false /\
               stop_stream st' = (Return tt, st')) /\
  (is_streaming st = true ->
   exists later,
     trace (snd (stop_stream st))
     = trace st ++ SetStreaming false :: cancellation (_keep_alive_task st) ++ later /\
     _keep_alive_task (snd (stop_stream st)) = None /\
     forall t, _keep_alive_task st = Some t ->
               tasks (snd (stop_stream st)) !! t <> Some Pending) /\
  (is_streaming st = true -> connected st = true ->
   forall msg lost, next_answer st = Failed msg lost ->
     fst (stop_stream st) = Return tt /\
     trace (snd (stop_stream st))
     = trace st ++ SetStreaming false :: cancellation (_keep_alive_task st)
         ++ [Gatt (StopNotify UUID_DATA) (Failed msg lost);
             Log WARNING ("Error stopping notifications: " ++ msg);
             Log INFO "Streaming stopped."]).
Proof.
  split; [apply stop_stream_not_streaming | split; [| split]].
  - destruct (stop_stream_returns st) as (st' & E & Hf).
    exists st'. repeat split; auto using stop_stream_not_streaming.
  - intros Hs. destruct st as [addr cl fl kt cb sc ts tr]. cbn in Hs. subst fl.
    unfold stop_stream, assign_is_streaming, assign_keep_alive_task,
      cancel_and_await, finish.
    unfold_co. cbn.
    destruct kt as [t|]; cbn.
    + destruct (ts !! t) as [[|w]|] eqn:Et; cbn;
        destruct cl as [[[] nt au]|]; cbn;
        try destruct sc as [|[p|msg lost] sc]; cbn;
        rewrite <- ?app_assoc; cbn;
        (eexists; split; [reflexivity | split; [reflexivity |]]);
        intros t' [= <-]; rewrite ?Et; try discriminate;
        rewrite list_lookup_insert_eq by (eapply lookup_lt_Some; eauto);
        discriminate.
    + destruct cl as [[[] nt au]|]; cbn;
        try destruct sc as [|[p|msg lost] sc]; cbn;
        rewrite <- ?app_assoc; cbn;
        (eexists; split; [reflexivity | split; [reflexivity |]]);
        intros t' [=].
  - intros Hs Hc msg lost Ha.
    destruct st as [addr cl fl kt cb sc ts tr]. cbn in Hs. subst fl.
    unfold stop_stream, assign_is_streaming, assign_keep_alive_task,
      cancel_and_await, finish, next_answer, answer in *.
    unfold_co. cbn in *.
    destruct cl as [[[] nt au]|]; try discriminate.
    destruct sc as [|[p|msg' lost'] sc]; cbn in Ha; try discriminate.
    injection Ha as -> ->.
    destruct kt as [t|]; cbn;
      [destruct (ts !! t) as [[|w]|]; cbn |];
      rewrite <- ?app_assoc; cbn; split; reflexivity.
Qed.

Lemma stop_stream_idempotent_witness :
  let st := streaming_session [Failed "Not connected" false] in
  fst (stop_stream st) = Return tt /\
  trace (snd (stop_stream st))
  = trace st ++ [SetStreaming false; TaskCancel 0; TaskAwait 0;
                 Gatt (StopNotify UUID_DATA) (Failed "Not connected" false);
                 Log WARNING "Error stopping notifications: Not connected";
                 Log INFO "Streaming stopped."].
Proof.
  exact (proj2 (proj2 (proj2 (stop_stream_idempotent
           (streaming_session [Failed "Not connected" false]))))
           eq_refl eq_refl "Not connected"%string false eq_refl).
Defined.
End Teardown.

Section Disconnect.
Import Py Client Scenario.

Lemma disconnect_unfold (st : state) :
  disconnect st
  = (fun s => if connected s then
       bind (log INFO "Disconnecting...")
         (fun _ => bind (gatt Disconnect) (fun _ => log INFO "Disconnected.")) s
     else ret tt s) (after_stop st).
Proof.
  unfold disconnect, after_stop, bind at 1.
  destruct (is_streaming st); [| reflexivity].
  destruct (stop_stream_returns st) as (st' & -> & _). reflexivity.
Qed.

(** C4, amended.  [disconnect] first stops streaming, which never
    raises (a failing unsubscribe is absorbed).  If no link is open after
    that, it returns with the session disconnected.  If a link is open and
    the transport disconnect completes, it returns with the session
    disconnected. *)
Theorem disconnect_spec (st : state) :
  (is_streaming st = true -> fst (stop_stream st) = Return tt) /\
  (connected (after_stop st) = false ->
   disconnect st = (Return tt, after_stop st) /\
   is_disconnected (after_stop st) = true) /\
  (connected (after_stop st) = true ->
   forall p, next_answer (after_stop st) = Done p ->
     exists st', disconnect st = (Return tt, st') /\ is_disconnected st' = true).
Proof.
  split; [| split].
  - intros _. destruct (stop_stream_returns st) as (st' & -> & _). reflexivity.
  - intros Hc. rewrite disconnect_unfold. cbn beta. rewrite Hc.
    split; [reflexivity |]. unfold is_disconnected. now rewrite Hc.
  - intros Hc p Ha. rewrite disconnect_unfold. cbn beta. rewrite Hc.
    destruct (after_stop st) as [addr cl fl kt cb sc ts tr].
    unfold is_disconnected, next_answer, answer in *. unfold_co. cbn in *.
    destruct cl as [[[] nt au]|]; try discriminate.
    destruct sc as [|[p'|msg lost] sc]; cbn in *; try discriminate;
      eexists; split; reflexivity.
Qed.

(** What the code does when the transport disconnect itself fails: the
    error goes to the caller. *)
Lemma disconnect_close_failure (st : state) (msg : string) (lost : bool) :
  connected (after_stop st) = true ->
  next_answer (after_stop st) = Failed msg lost ->
  fst (disconnect st) = Raise (TransportError msg).
Proof.
  intros Hc Ha. rewrite disconnect_unfold. cbn beta. rewrite Hc.
  destruct (after_stop st) as [addr cl fl kt cb sc ts tr].
  unfold next_answer, answer in *. unfold_co. cbn in *.
  destruct cl as [[[] nt au]|]; try discriminate.
  destruct sc as [|[p'|msg' lost'] sc]; cbn in *; try discriminate.
  injection Ha as -> ->. reflexivity.
Qed.

(** Streaming session, the unsubscribe fails, the transport disconnect
    completes: [disconnect] returns and the session is disconnected. *)
Lemma disconnect_spec_witness :
  let st := streaming_session [Failed "Not connected" false; Done []] in
  exists st', disconnect st = (Return tt, st') /\ is_disconnected st' = true.
Proof.
  exact (proj2 (proj2 (disconnect_spec
           (streaming_session [Failed "Not connected" false; Done []])))
           eq_refl [] eq_refl).
Defined.

(** C4 as stated fails: when the transport disconnect raises,
    [disconnect] raises too and the link is still up. *)
Lemma disconnect_failure_propagates :
  let st := authenticated_session [Failed "Disconnect timed out" false] in
  fst (disconnect st) = Raise (TransportError "Disconnect timed out") /\
  is_disconnected (snd (disconnect st)) = false.
Proof. split; reflexivity. Qed.
End Disconnect.

Section Streaming.
Import Py Client Scenario.

Lemma running_tasks_spawn (ts : list task_status) :
  length (List.filter is_pending (ts ++ [Pending]))
  = S (length (List.filter is_pending ts)).
Proof. rewrite List.filter_app, length_app. cbn. lia. Qed.

(** C3, amended.  [start_stream] on a connected session is never a
    no-op, streaming or not: it registers the observer, sets the flag,
    subscribes and sends the activation command again and, both
    operations completing, starts one more keep-alive task whose handle
    replaces the stored one.  The tasks started before are left as they
    are, so one more task is running than before. *)
Theorem start_stream_spawns_task (st : state) (cb : observer) (p1 p2 : bytes) :
  connected st = true ->
  answer 0 st = Done p1 -> answer 1 st = Done p2 ->
  exists st',
    start_stream cb st = (Return tt, st') /\
    _data_callback st' = Some cb /\
    is_streaming st' = true /\
    tasks st' = tasks st ++ [Pending] /\
    _keep_alive_task st' = Some (length (tasks st)) /\
    running_tasks st' = S (running_tasks st) /\
    gatt_calls st'
    = gatt_calls st ++ [Gatt (StartNotify UUID_DATA) (Done p1);
                        Gatt (WriteGattChar UUID_COMMAND CMD_ACTIVATE true) (Done p2)].
Proof.
  intros Hc H1 H2. destruct st as [addr cl fl kt cb0 sc ts tr].
  unfold running_tasks, gatt_calls, start_stream, assign_data_callback,
    assign_is_streaming, assign_keep_alive_task, create_task, answer in *.
  unfold_co. cbn in *.
  destruct cl as [[[] nt au]|]; try discriminate.
  by_cases_on_script sc.
  all: eexists; repeat split; cbn.
  all: first [ apply running_tasks_spawn
             | rewrite !List.filter_app; cbn;
               rewrite <- !app_assoc, ?app_nil_r; cbn; congruence ].
Qed.

Lemma start_stream_spawns_task_witness :
  exists st',
    start_stream 7%nat (streaming_session [Done []; Done []]) = (Return tt, st') /\
    is_streaming (streaming_session [Done []; Done []]) = true /\
    running_tasks (streaming_session [Done []; Done []]) = 1%nat /\
    running_tasks st' = 2%nat.
Proof.
  destruct (start_stream_spawns_task (streaming_session [Done []; Done []])
              7%nat [] [] eq_refl eq_refl eq_refl)
    as (st' & E & _ & _ & _ & _ & R & _).
  exists st'. repeat split; [exact E | exact R].
Defined.

(** C3 as stated fails: after two calls in a row two keep-alive tasks
    are running, and the second call went to the stack again. *)
Lemma start_stream_twice_two_tasks :
  let st1 := streaming_session [Done []; Done []] in
  let st2 := snd (start_stream 7%nat st1) in
  is_streaming st1 = true /\ running_tasks st1 = 1%nat /\
  fst (start_stream 7%nat st1) = Return tt /\
  running_tasks st2 = 2%nat /\
  tasks st2 = [Pending; Pending] /\
  length (gatt_calls st2) = (length (gatt_calls st1) + 2)%nat.
Proof. repeat split. Qed.
End Streaming.

Section KeepAlive.
Import Py Client Scenario.

(** With the flag cleared a turn of any keep-alive task asks nothing of
    the stack and leaves the flag cleared. *)
Lemma keep_alive_loop_idle (t : nat) (st : state) :
  is_streaming st = false ->
  is_streaming (_keep_alive_loop t st) = false /\
  trace (_keep_alive_loop t st) = trace st /\
  script (_keep_alive_loop t st) = script st.
Proof.
  intros H. unfold _keep_alive_loop. rewrite H.
  destruct (tasks st !! t) as [[|w]|]; auto.
Qed.

Lemma wake_idle (ts : list nat) (st : state) :
  is_streaming st = false ->
  is_streaming (wake ts st) = false /\
  trace (wake ts st) = trace st /\
  script (wake ts st) = script st.
Proof.
  revert st. induction ts as [|t ts IH]; intros st H; [auto |].
  change (wake (t :: ts) st) with (wake ts (_keep_alive_loop t st)).
  destruct (keep_alive_loop_idle t st H) as (Hf & Ht & Hs).
  destruct (IH _ Hf) as (Hf' & Ht' & Hs').
  rewrite Ht', Hs'. auto.
Qed.

(** A finished task never runs again. *)
Lemma keep_alive_loop_finished (t : nat) (st : state) (why : exit_path) :
  tasks st !! t = Some (Finished why) -> _keep_alive_loop t st = st.
Proof. intros H. unfold _keep_alive_loop. now rewrite H. Qed.

(** C5, amended.  For a pending keep-alive task: a failing write is
    logged, the flag is cleared and the task leaves its loop, and as long
    as the flag stays cleared no keep-alive task writes again.  The loop
    is left on one of three paths: cancellation by [stop_stream], its own
    failed write, or finding the flag cleared at the [while] test.
    Dispatch of a notification does not depend on the flag. *)
Theorem keep_alive_loop_spec (st : state) (t : nat) :
  tasks st !! t = Some Pending ->
  (is_streaming st = true -> connected st = true ->
   forall msg lost, next_answer st = Failed msg lost ->
     let st' := _keep_alive_loop t st in
     trace st'
     = trace st ++ [Gatt (WriteGattChar UUID_COMMAND CMD_ACTIVATE false)
                         (Failed msg lost);
                    Log ERROR ("Keep-alive error: " ++ msg);
                    SetStreaming false] /\
     is_streaming st' = false /\
     tasks st' !! t = Some (Finished ByWriteFailure) /\
     forall ts, keep_alive_writes (wake ts st') = keep_alive_writes st') /\
  (forall why, tasks (_keep_alive_loop t st) !! t = Some (Finished why) ->
     (why = ByWriteFailure /\ is_streaming st = true /\ connected st = true /\
      exists msg lost, next_answer st = Failed msg lost) \/
     (why = ByFlagCleared /\ is_streaming st = false)) /\
  tasks (snd (cancel_and_await t st)) !! t = Some (Finished ByCancellation) /\
  (forall data b,
     _notification_handler data (set_is_streaming b st)
     = (fst (_notification_handler data st),
        set_is_streaming b (snd (_notification_handler data st)))).
Proof.
  intros Hp. pose proof (lookup_lt_Some _ _ _ Hp) as Hlt.
  split; [| split; [| split]].
  - intros Hs Hc msg lost Ha st'.
    assert (E : st' = finish t ByWriteFailure
              (emit (SetStreaming false)
                 (set_is_streaming false
                    (emit (Log ERROR ("Keep-alive error: " ++ msg))
                       (emit (Gatt (WriteGattChar UUID_COMMAND CMD_ACTIVATE false)
                                   (Failed msg lost))
                          (set_script (tl (script st))
                             (set_client
                                (option_map (respond
                                   (WriteGattChar UUID_COMMAND CMD_ACTIVATE false)
                                   (Failed msg lost)) (client st)) st))))))).
    { subst st'. unfold _keep_alive_loop. rewrite Hp, Hs, Hc.
      unfold assign_is_streaming, next_answer, answer in *. unfold_co.
      destruct (client st) as [c|]; [| discriminate].
      destruct (script st) as [|[p|msg' lost'] sc]; cbn in Ha; try discriminate.
      injection Ha as -> ->. reflexivity. }
    assert (Hf : is_streaming st' = false) by (rewrite E; reflexivity).
    repeat split.
    + rewrite E. cbn. rewrite <- !app_assoc. reflexivity.
    + exact Hf.
    + rewrite E. cbn. now apply list_lookup_insert_eq.
    + intros ts. unfold keep_alive_writes.
      destruct (wake_idle ts st' Hf) as (_ & -> & _). reflexivity.
  - intros why. unfold _keep_alive_loop. rewrite Hp.
    destruct (is_streaming st) eqn:Hs.
    + destruct (connected st) eqn:Hc; [| rewrite Hp; discriminate].
      unfold assign_is_streaming, finish, next_answer, answer in *. unfold_co.
      destruct (client st) as [c|]; [| discriminate].
      destruct (script st) as [|[p|msg lost] sc]; cbn; rewrite ?Hp; try discriminate.
      rewrite list_lookup_insert_eq by exact Hlt. intros [= <-]. left.
      repeat split. eauto.
    + unfold finish. cbn. rewrite list_lookup_insert_eq by exact Hlt.
      intros [= <-]. right. auto.
  - unfold cancel_and_await, update, finish. cbn. rewrite Hp. cbn.
    now apply list_lookup_insert_eq.
  - intros data b. unfold _notification_handler.
    destruct (len data =? LIVE_DATA_PACKET_SIZE).
    + destruct (Protocol.decode_live_pm_value data) as [[v|]|e]; cbn;
        destruct (_data_callback st); reflexivity.
    + destruct (LIVE_DATA_PACKET_SIZE <? len data); cbn;
        [destruct (_data_callback st) |]; reflexivity.
Qed.

(** One streaming session whose first keep-alive write fails. *)
Lemma keep_alive_loop_spec_witness :
  let st := streaming_session [Failed "Not connected" true] in
  let st' := _keep_alive_loop 0 st in
  is_streaming st' = false /\
  tasks st' !! 0%nat = Some (Finished ByWriteFailure) /\
  keep_alive_writes (wake [0%nat; 0%nat; 0%nat] st') = keep_alive_writes st'.
Proof.
  destruct (proj1 (keep_alive_loop_spec
                     (streaming_session [Failed "Not connected" true]) 0 eq_refl)
              eq_refl eq_refl "Not connected"%string true eq_refl)
    as (_ & Hf & Ht & Hw).
  cbv zeta. split; [exact Hf | split; [exact Ht | apply Hw]].
Defined.

(** C5 as stated fails: with two keep-alive tasks alive (two
    [start_stream] calls), the failed write of task 1 clears the flag and
    task 0 then leaves its loop at the [while] test: it was not
    cancelled, [stop_stream] was never called, and no write of its own
    failed. *)
Lemma keep_alive_third_exit_path :
  tasks orphan_run !! 0%nat = Some (Finished ByFlagCleared) /\
  tasks orphan_run !! 1%nat = Some (Finished ByWriteFailure) /\
  List.filter (fun e => match e with TaskCancel _ => true | _ => false end)
              (trace orphan_run) = [].
Proof. repeat split. Qed.
End KeepAlive.

Section Connect.
Import Py Client Scenario.

(** C8, amended.  When both the connect and the authentication write
    complete, [connect] returns with the session authenticated.  When
    one of them fails and the closing of the link that follows completes,
    [connect] ends disconnected and raises exactly one fault:
    [AuthenticationError] if the failure's text contains
    ["Authentication"], [ConnectionError] otherwise. *)
Theorem connect_spec (st : state) :
  (forall p1 p2, answer 0 st = Done p1 -> answer 1 st = Done p2 ->
     exists st', connect st = (Return tt, st') /\ is_authenticated st' = true) /\
  (forall msg lost p, answer 0 st = Failed msg lost -> answer 1 st = Done p ->
     exists st',
       connect st = (Raise (connect_fault (TransportError msg)), st') /\
       is_disconnected st' = true /\
       gatt_calls st' = gatt_calls st ++ [Gatt Connect (Failed msg lost);
                                          Gatt Disconnect (Done p)]) /\
  (forall p1 msg lost p, answer 0 st = Done p1 -> answer 1 st = Failed msg lost ->
                         answer 2 st = Done p ->
     exists st',
       connect st = (Raise (connect_fault (TransportError msg)), st') /\
       is_disconnected st' = true /\
       gatt_calls st'
       = gatt_calls st ++ [Gatt Connect (Done p1);
                           Gatt (WriteGattChar UUID_AUTH AUTH_KEY true) (Failed msg lost);
                           Gatt Disconnect (Done p)]).
Proof.
  destruct st as [addr cl fl kt cb sc ts tr].
  unfold gatt_calls, connect_fault, connect, is_authenticated, is_disconnected,
    answer.
  unfold_co. cbn.
  split; [| split].
  - intros p1 p2 H1 H2. by_cases_on_script sc; eexists; split; reflexivity.
  - intros msg lost p H1 H2.
    by_cases_on_script sc.
    all: injection H1 as -> ->.
    all: destruct (contains "Authentication" msg); cbn.
    all: eexists; repeat split; cbn.
    all: rewrite !List.filter_app; cbn; rewrite <- !app_assoc, ?app_nil_r; cbn.
    all: congruence.
  - intros p1 msg lost p H1 H2 H3.
    by_cases_on_script sc.
    all: injection H2 as -> ->.
    all: destruct (contains "Authentication" msg); cbn.
    all: eexists; repeat split; cbn.
    all: rewrite !List.filter_app; cbn; rewrite <- !app_assoc, ?app_nil_r; cbn.
    all: congruence.
Qed.

Lemma connect_spec_witness :
  (exists st', connect (init device [Done []; Done []]) = (Return tt, st') /\
               is_authenticated st' = true) /\
  (exists st',
     connect (init device [Done []; Failed "Authentication rejected" true; Done []])
     = (Raise (AuthenticationError (TransportError "Authentication rejected")), st') /\
     is_disconnected st' = true) /\
  (exists st',
     connect (init device [Failed "Device not found" false; Done []])
     = (Raise (ConnectionError (TransportError "Device not found")), st') /\
     is_disconnected st' = true).
Proof.
  split; [| split].
  - exact (proj1 (connect_spec (init device [Done []; Done []])) [] [] eq_refl eq_refl).
  - destruct (proj2 (proj2 (connect_spec
                (init device [Done []; Failed "Authentication rejected" true; Done []])))
                [] "Authentication rejected"%string true [] eq_refl eq_refl eq_refl)
      as (st' & E & D & _).
    exists st'. split; [exact E | exact D].
  - destruct (proj1 (proj2 (connect_spec
                (init device [Failed "Device not found" false; Done []])))
                "Device not found"%string false [] eq_refl eq_refl)
      as (st' & E & D & _).
    exists st'. split; [exact E | exact D].
Defined.

(** C8 as stated fails: the authentication write is rejected and the
    closing of the link fails in its turn; the caller gets the error of
    the close, neither [AuthenticationError] nor [ConnectionError], and
    the link is still up. *)
Lemma connect_cleanup_failure_escapes :
  let st := init device [Done []; Failed "Authentication rejected" false;
                         Failed "Disconnect timed out" false] in
  fst (connect st) = Raise (TransportError "Disconnect timed out") /\
  is_disconnected (snd (connect st)) = false.
Proof. split; reflexivity. Qed.
End Connect.

Section Battery.
Import Py Client Scenario.

(** C9, amended.  [read_battery] raises [NotConnectedError] when no
    link is open.  Otherwise it asks the stack for exactly one read of the
    battery characteristic and returns the first byte of the payload, an
    integer between 0 and 255; it returns [None] when the read fails and
    when the payload is empty. *)
Theorem read_battery_spec (st : state) :
  (connected st = false -> read_battery st = (Raise NotConnectedError, st)) /\
  (connected st = true ->
   gatt_calls (snd (read_battery st))
   = gatt_calls st ++ [Gatt (ReadGattChar UUID_BATTERY) (next_answer st)] /\
   match next_answer st with
   | Done (b :: _) =>
       fst (read_battery st) = Return (Some (byte_val b)) /\ 0 <= byte_val b <= 255
   | Done [] => fst (read_battery st) = Return None
   | Failed _ _ => fst (read_battery st) = Return None
   end).
Proof.
  destruct st as [addr cl fl kt cb sc ts tr].
  unfold gatt_calls, read_battery, first_byte, next_answer, answer.
  unfold_co. cbn.
  split.
  - intros H. destruct cl as [[[] nt au]|]; try discriminate; reflexivity.
  - intros H. destruct cl as [[[] nt au]|]; try discriminate. cbn.
    destruct sc as [|[[|b p]|msg lost] sc]; cbn;
      rewrite !List.filter_app; cbn; rewrite <- ?app_assoc, ?app_nil_r; cbn;
      repeat split; auto; apply byte_val_range.
Qed.

Lemma read_battery_spec_witness :
  fst (read_battery (authenticated_session [Done [x57]])) = Return (Some 87) /\
  read_battery (init device []) = (Raise NotConnectedError, init device []).
Proof.
  split.
  - exact (proj1 (proj2 (proj2 (read_battery_spec
             (authenticated_session [Done [x57]])) eq_refl))).
  - exact (proj1 (read_battery_spec (init device [])) eq_refl).
Defined.

(** C9 as stated fails twice over.  A payload whose first byte is 200 is
    returned as it is, outside 0..100.  And a session whose link is up
    but whose key was never accepted (the authentication write failed and
    so did the closing of the link) is not refused: the read goes out. *)
Lemma read_battery_unchecked :
  (fst (read_battery (authenticated_session [Done [xc8]])) = Return (Some 200) /\
   ~ 200 <= 100) /\
  (let st := snd (connect (init device [Done []; Failed "Authentication rejected" false;
                                        Failed "Disconnect timed out" false;
                                        Done [x57]])) in
   is_authenticated st = false /\
   fst (read_battery st) = Return (Some 87)).
Proof. repeat split. lia. Qed.
End Battery.

(** ** What the methods leave alone *)

Section Frames.
Import Py Client Usage.

(** [connect] is about the link only: it neither starts nor stops
    streaming, and it keeps the observer and the keep-alive tasks. *)
Lemma connect_frame (st : state) :
  tasks (snd (connect st)) = tasks st /\
  is_streaming (snd (connect st)) = is_streaming st /\
  _keep_alive_task (snd (connect st)) = _keep_alive_task st /\
  _data_callback (snd (connect st)) = _data_callback st.
Proof.
  destruct st as [addr cl fl kt cb sc ts tr]. unfold connect. unfold_co. cbn.
  destruct sc as [|[?|? ?] [|[?|? ?] [|[?|? ?] sc]]]; cbn;
    repeat match goal with |- context [if ?b then _ else _] => destruct b; cbn end;
    auto.
Qed.

Lemma read_battery_frame (st : state) :
  tasks (snd (read_battery st)) = tasks st /\
  is_streaming (snd (read_battery st)) = is_streaming st /\
  _keep_alive_task (snd (read_battery st)) = _keep_alive_task st /\
  _data_callback (snd (read_battery st)) = _data_callback st.
Proof.
  destruct st as [addr cl fl kt cb sc ts tr].
  unfold read_battery, first_byte. unfold_co. cbn.
  destruct cl as [[[] nt au]|]; cbn; auto.
  destruct sc as [|[[|b p]|msg lost] sc]; cbn; auto.
Qed.

Lemma notification_handler_frame (data : bytes) (st : state) :
  exists evs,
    snd (_notification_handler data st)
    = {| address := address st; client := client st;
         is_streaming := is_streaming st;
         _keep_alive_task := _keep_alive_task st;
         _data_callback := _data_callback st;
         script := script st; tasks := tasks st;
         trace := trace st ++ evs |}.
Proof.
  destruct st as [addr cl fl kt cb sc ts tr]. unfold _notification_handler.
  destruct (len data =? LIVE_DATA_PACKET_SIZE).
  - destruct (Protocol.decode_live_pm_value data) as [[v|]|e]; destruct cb; cbn;
      first [ eexists; reflexivity
            | exists nil; cbn; rewrite app_nil_r; reflexivity ].
  - destruct (LIVE_DATA_PACKET_SIZE <? len data); destruct cb; cbn;
      first [ eexists; reflexivity
            | exists nil; cbn; rewrite app_nil_r; reflexivity ].
Qed.
End Frames.

(** ** The remaining methods and how they fail *)

Section MoreMethods.
Import Py Client Usage.

(** [fetch_history] refuses without a link and touches nothing then.
    With a link it asks for exactly one write-with-response of the
    fetch-history command, streaming or not, returns when the write
    completes and lets its failure through; flag, observer and tasks are
    never changed. *)
Theorem fetch_history_spec (st : state) :
  (connected st = false -> fetch_history st = (Raise NotConnectedError, st)) /\
  (connected st = true ->
   gatt_calls (snd (fetch_history st))
   = gatt_calls st
       ++ [Gatt (WriteGattChar UUID_COMMAND CMD_FETCH_HISTORY true) (next_answer st)] /\
   fst (fetch_history st)
   = match next_answer st with
     | Done _ => Return tt
     | Failed msg _ => Raise (TransportError msg)
     end /\
   tasks (snd (fetch_history st)) = tasks st /\
   is_streaming (snd (fetch_history st)) = is_streaming st /\
   _keep_alive_task (snd (fetch_history st)) = _keep_alive_task st /\
   _data_callback (snd (fetch_history st)) = _data_callback st).
Proof.
  destruct st as [addr cl fl kt cb sc ts tr].
  unfold gatt_calls, fetch_history, next_answer, answer. unfold_co. cbn.
  split.
  - intros H. destruct cl as [[[] nt au]|]; try discriminate; reflexivity.
  - intros H. destruct cl as [[[] nt au]|]; try discriminate. cbn.
    destruct sc as [|[p|msg lost] sc]; cbn;
      rewrite !List.filter_app; cbn; rewrite <- ?app_assoc, ?app_nil_r; cbn;
      repeat split.
Qed.

Lemma fetch_history_spec_witness :
  fst (fetch_history (Scenario.authenticated_session [Done []])) = Return tt /\
  fetch_history (init Scenario.device [])
  = (Raise NotConnectedError, init Scenario.device []).
Proof.
  split.
  - exact (proj1 (proj2 (proj2 (fetch_history_spec
             (Scenario.authenticated_session [Done []])) eq_refl))).
  - exact (proj1 (fetch_history_spec (init Scenario.device [])) eq_refl).
Defined.

(** [start_stream] without a link raises and leaves the client exactly
    as it was.  With a link, a failing subscription or a failing
    activation write is raised after the observer has been registered and
    the flag set, and before any keep-alive task exists: the flag is then
    set with no task behind it. *)
Theorem start_stream_failure (st : state) (cb : observer) :
  (connected st = false -> start_stream cb st = (Raise NotConnectedError, st)) /\
  (connected st = true ->
   forall msg,
     (exists lost, answer 0 st = Failed msg lost) \/
     (exists p lost, answer 0 st = Done p /\ answer 1 st = Failed msg lost) ->
     fst (start_stream cb st) = Raise (TransportError msg) /\
     is_streaming (snd (start_stream cb st)) = true /\
     _data_callback (snd (start_stream cb st)) = Some cb /\
     tasks (snd (start_stream cb st)) = tasks st /\
     _keep_alive_task (snd (start_stream cb st)) = _keep_alive_task st).
Proof.
  destruct st as [addr cl fl kt cb0 sc ts tr].
  unfold start_stream, assign_data_callback, assign_is_streaming,
    assign_keep_alive_task, create_task, answer.
  unfold_co. cbn.
  split.
  - intros H. destruct cl as [[[] nt au]|]; try discriminate; reflexivity.
  - intros H msg Hf. destruct cl as [[[] nt au]|]; try discriminate. cbn.
    destruct Hf as [[lost H0]|(p & lost & H0 & H1)];
      destruct sc as [|[?|? ?] [|[?|? ?] sc]]; cbn in *;
      try discriminate; try (injection H0 as -> ->); try (injection H1 as -> ->);
      repeat split.
Qed.

Lemma start_stream_failure_witness :
  let st := Scenario.authenticated_session [Done []; Failed "Write failed" false] in
  fst (start_stream 7%nat st) = Raise (TransportError "Write failed") /\
  is_streaming (snd (start_stream 7%nat st)) = true /\
  tasks (snd (start_stream 7%nat st)) = [].
Proof.
  destruct (proj2 (start_stream_failure
              (Scenario.authenticated_session [Done []; Failed "Write failed" false])
              7%nat) eq_refl "Write failed"%string
              (or_intror (ex_intro _ [] (ex_intro _ false (conj eq_refl eq_refl)))))
    as (R & F & _ & T & _).
  cbv zeta. split; [exact R | split; [exact F | exact T]].
Defined.

(** A reconnect is about the link only.  Whatever the stack answers,
    [connect] keeps the streaming flag, the observer, the stored task
    handle and every task; and the link it opens is not subscribed to
    notifications.  So a client whose flag was set comes back connected,
    flagged as streaming, and deaf. *)
Theorem connect_keeps_streaming_state (st : state) :
  (tasks (snd (connect st)) = tasks st /\
   is_streaming (snd (connect st)) = is_streaming st /\
   _keep_alive_task (snd (connect st)) = _keep_alive_task st /\
   _data_callback (snd (connect st)) = _data_callback st) /\
  (fst (connect st) = Return tt ->
   client (snd (connect st))
   = Some {| is_connected := true; notifying := false; authenticated := true |}).
Proof.
  split; [apply connect_frame |].
  destruct st as [addr cl fl kt cb sc ts tr]. unfold connect. unfold_co. cbn.
  destruct sc as [|[?|? ?] [|[?|? ?] [|[?|? ?] sc]]]; cbn;
    repeat match goal with |- context [if ?b then _ else _] => destruct b; cbn end;
    intros H; try discriminate; reflexivity.
Qed.

Lemma connect_keeps_streaming_state_witness :
  client (snd (connect (Scenario.streaming_session [])))
  = Some {| is_connected := true; notifying := false; authenticated := true |} /\
  is_streaming (snd (connect (Scenario.streaming_session []))) = true.
Proof.
  split.
  - exact (proj2 (connect_keeps_streaming_state (Scenario.streaming_session []))
             eq_refl).
  - exact (proj1 (proj2 (proj1 (connect_keeps_streaming_state
             (Scenario.streaming_session []))))).
Defined.
End MoreMethods.

(** ** An invariant of the keep-alive tasks *)

Section Supervision.
Import Py Client Usage.

Lemma no_pending_filter (ts : list task_status) :
  (forall t, ts !! t <> Some Pending) -> List.filter is_pending ts = [].
Proof.
  induction ts as [|s ts IH]; intros H; [reflexivity |].
  cbn. destruct s; cbn.
  - exfalso. now apply (H 0%nat).
  - apply IH. intros t. apply (H (S t)).
Qed.

Lemma one_pending_filter (ts : list task_status) :
  (forall i j, ts !! i = Some Pending -> ts !! j = Some Pending -> i = j) ->
  (length (List.filter is_pending ts) <= 1)%nat.
Proof.
  induction ts as [|s ts IH]; intros H; [cbn; lia |].
  cbn. destruct s; cbn.
  - rewrite no_pending_filter; [cbn; lia |].
    intros t Ht. specialize (H 0%nat (S t) eq_refl Ht). discriminate.
  - apply IH. intros i j Hi Hj. specialize (H (S i) (S j) Hi Hj). lia.
Qed.

(** Under supervision at most one keep-alive task is pending, and none
    once the flag is cleared. *)
Lemma supervised_running (st : state) :
  supervised st ->
  (running_tasks st <= 1)%nat /\
  (is_streaming st = false -> running_tasks st = 0%nat).
Proof.
  intros H. unfold running_tasks. split.
  - apply one_pending_filter. intros i j Hi Hj.
    destruct (H i Hi) as [Ei _]. destruct (H j Hj) as [Ej _]. congruence.
  - intros Hf. rewrite no_pending_filter; [reflexivity |].
    intros t Ht. destruct (H t Ht) as [_ E]. congruence.
Qed.

Lemma running_zero_no_pending (st : state) :
  running_tasks st = 0%nat -> forall t, tasks st !! t <> Some Pending.
Proof.
  unfold running_tasks. intros H t Ht.
  apply list_elem_of_lookup_2 in Ht. apply list_elem_of_In in Ht.
  assert (Hin : In Pending (List.filter is_pending (tasks st)))
    by (apply List.filter_In; split; [exact Ht | reflexivity]).
  destruct (List.filter is_pending (tasks st)); [contradiction | discriminate].
Qed.

Lemma supervised_frame (st st' : state) :
  tasks st' = tasks st -> is_streaming st' = is_streaming st ->
  _keep_alive_task st' = _keep_alive_task st ->
  supervised st -> supervised st'.
Proof. unfold supervised. intros -> -> ->. auto. Qed.

Lemma supervised_init (addr : string) (answers : list outcome) :
  supervised (init addr answers).
Proof. intros t Ht. discriminate. Qed.

(** After [stop_stream] on a supervised client nothing is pending. *)
Lemma stop_stream_clears (st : state) :
  supervised st ->
  (forall t, tasks (snd (stop_stream st)) !! t <> Some Pending) /\
  is_streaming (snd (stop_stream st)) = false.
Proof.
  intros H. destruct st as [addr cl fl kt cb sc ts tr].
  unfold supervised in H. cbn in H.
  unfold stop_stream, assign_is_streaming, assign_keep_alive_task,
    cancel_and_await, finish.
  unfold_co. cbn.
  destruct fl; cbn.
  - assert (Hgone : forall t0 s, kt = Some t0 ->
              forall t, <[t0 := Finished s]> ts !! t <> Some Pending).
    { intros t0 s -> t Ht.
      destruct (decide (t0 = t)) as [->|Hne].
      - pose proof (list_lookup_insert_eq ts t (Finished s)) as E.
        destruct (decide (t < length ts)%nat) as [Hl|Hl].
        + rewrite E in Ht by exact Hl. discriminate.
        + rewrite list_insert_ge in Ht by lia.
          apply lookup_lt_Some in Ht. lia.
      - rewrite list_lookup_insert_ne in Ht by exact Hne.
        destruct (H t Ht) as [[= E] _]. congruence. }
    assert (Hnone : kt = None -> forall t, ts !! t <> Some Pending).
    { intros -> t Ht. destruct (H t Ht) as [[=] _]. }
    assert (Hdone : forall t0, kt = Some t0 -> ts !! t0 <> Some Pending ->
              forall t, ts !! t <> Some Pending).
    { intros t0 -> Hn t Ht. destruct (H t Ht) as [[= ->] _]. contradiction. }
    destruct kt as [t0|]; cbn.
    + destruct (ts !! t0) as [[|w]|] eqn:Et; cbn;
        destruct cl as [[[] nt au]|]; cbn;
        try destruct sc as [|[p|msg lost] sc]; cbn;
        (split; [| reflexivity]);
        first [ apply (Hgone t0 _ eq_refl)
              | apply (Hdone t0 eq_refl); rewrite Et; discriminate ].
    + destruct cl as [[[] nt au]|]; cbn;
        try destruct sc as [|[p|msg lost] sc]; cbn;
        (split; [| reflexivity]); apply Hnone; reflexivity.
  - split; [| reflexivity]. intros t Ht. destruct (H t Ht) as [_ [=]].
Qed.

Lemma stop_stream_supervised (st : state) :
  supervised st -> supervised (snd (stop_stream st)).
Proof.
  intros H t Ht. exfalso. exact (proj1 (stop_stream_clears st H) t Ht).
Qed.

Lemma disconnect_tasks (st : state) :
  tasks (snd (disconnect st)) = tasks (after_stop st) /\
  is_streaming (snd (disconnect st)) = is_streaming (after_stop st) /\
  _keep_alive_task (snd (disconnect st)) = _keep_alive_task (after_stop st).
Proof.
  rewrite disconnect_unfold. cbn beta.
  destruct (after_stop st) as [addr cl fl kt cb sc ts tr].
  unfold_co. cbn.
  destruct cl as [[[] nt au]|]; cbn; auto.
  destruct sc as [|[p|msg lost] sc]; cbn; auto.
Qed.

(** After [disconnect] on a supervised client, returned or raised,
    nothing is pending and the flag is cleared. *)
Lemma disconnect_clears (st : state) :
  supervised st ->
  (forall t, tasks (snd (disconnect st)) !! t <> Some Pending) /\
  is_streaming (snd (disconnect st)) = false.
Proof.
  intros H. destruct (disconnect_tasks st) as (-> & -> & _).
  unfold after_stop. destruct (is_streaming st) eqn:Hf.
  - apply stop_stream_clears, H.
  - split; [| exact Hf]. intros t Ht. destruct (H t Ht) as [_ E]. congruence.
Qed.

Lemma keep_alive_loop_supervised (t : nat) (st : state) :
  supervised st -> supervised (_keep_alive_loop t st).
Proof.
  intros H. unfold _keep_alive_loop.
  destruct (tasks st !! t) as [[|w]|] eqn:Et; try exact H.
  destruct (H t Et) as [Ek Ef]. rewrite Ef.
  destruct (connected st) eqn:Hc; [| exact H].
  destruct st as [addr cl fl kt cb sc ts tr]. cbn in *.
  unfold assign_is_streaming, finish. unfold_co. cbn in *.
  destruct cl as [c|]; [| discriminate].
  destruct sc as [|[p|msg lost] sc]; cbn; try exact H.
  intros t' Ht'. cbn in Ht'. exfalso.
  destruct (decide (t = t')) as [<-|Hne].
  - rewrite list_lookup_insert_eq in Ht' by (eapply lookup_lt_Some; eauto).
    discriminate.
  - rewrite list_lookup_insert_ne in Ht' by exact Hne.
    destruct (H t' Ht') as [E _]. cbn in E, Ek. congruence.
Qed.

Lemma run_event_supervised (ev : loop_event) (st : state) :
  supervised st -> supervised (run_event ev st).
Proof.
  destruct ev as [t|data]; cbn.
  - apply keep_alive_loop_supervised.
  - destruct (notification_handler_frame data st) as [evs ->].
    apply supervised_frame; reflexivity.
Qed.

Lemma sleep_supervised (evs : list loop_event) (st : state) :
  supervised st -> supervised (snd (sleep evs st)).
Proof.
  unfold sleep, update. cbn. revert st.
  induction evs as [|ev evs IH]; intros st H; [exact H |].
  cbn. apply IH, run_event_supervised, H.
Qed.

(** [start_stream] called while nothing is pending leaves the client
    supervised, whether it returns or raises. *)
Lemma start_stream_supervised (cb : observer) (st : state) :
  (forall t, tasks st !! t <> Some Pending) ->
  supervised (snd (start_stream cb st)).
Proof.
  intros H. destruct st as [addr cl fl kt cb0 sc ts tr]. cbn in H.
  unfold start_stream, assign_data_callback, assign_is_streaming,
    assign_keep_alive_task, create_task.
  unfold_co. cbn.
  destruct cl as [[[] nt au]|]; cbn;
    try (intros t Ht; exfalso; exact (H t Ht)).
  destruct sc as [|[?|? ?] [|[?|? ?] sc]]; cbn;
    intros t Ht; cbn in Ht;
    try (exfalso; exact (H t Ht)).
  all: destruct (decide (t < length ts)%nat) as [Hl|Hl];
    [rewrite lookup_app_l in Ht by exact Hl; exfalso; exact (H t Ht) |].
  all: assert (t = length ts)
    by (apply lookup_lt_Some in Ht; rewrite length_app in Ht; cbn in Ht; lia).
  all: subst t; split; reflexivity.
Qed.
End Supervision.

Section Programs.
Import Py Client Usage.

Lemma fetch_history_frame (st : state) :
  tasks (snd (fetch_history st)) = tasks st /\
  is_streaming (snd (fetch_history st)) = is_streaming st /\
  _keep_alive_task (snd (fetch_history st)) = _keep_alive_task st.
Proof.
  destruct st as [addr cl fl kt cb sc ts tr]. unfold fetch_history. unfold_co. cbn.
  destruct cl as [[[] nt au]|]; cbn; auto.
  destruct sc as [|[p|msg lost] sc]; cbn; auto.
Qed.

Lemma perform_supervised (c : call) (st : state) :
  supervised st ->
  match c with
  | CallStartStream _ => running_tasks st = 0%nat
  | _ => True
  end ->
  supervised (perform c st).
Proof.
  intros H Hc. destruct c as [|cb| | | | |ev]; cbn.
  - destruct (connect_frame st) as (Et & Ef & Ek & _).
    now apply (supervised_frame st).
  - apply start_stream_supervised, running_zero_no_pending, Hc.
  - apply stop_stream_supervised, H.
  - destruct (fetch_history_frame st) as (Et & Ef & Ek).
    now apply (supervised_frame st).
  - destruct (read_battery_frame st) as (Et & Ef & Ek & _).
    now apply (supervised_frame st).
  - intros t Ht. exfalso. exact (proj1 (disconnect_clears st H) t Ht).
  - apply run_event_supervised, H.
Qed.

Lemma session_supervised (cs : list call) (st : state) :
  supervised st -> starts_once cs st = true -> supervised (session cs st).
Proof.
  revert st. induction cs as [|c cs IH]; intros st H Hs; [exact H |].
  cbn in Hs. apply andb_true_iff in Hs as [Hc Hs].
  change (session (c :: cs) st) with (session cs (perform c st)).
  apply IH; [| exact Hs].
  apply perform_supervised; [exact H |].
  destruct c; try exact I. now apply Nat.eqb_eq.
Qed.

(** For a program that never calls [start_stream] while a keep-alive
    task is pending: whatever else it calls, in whatever order, whatever
    the stack answers and whatever the event loop runs in between, at most
    one keep-alive task is pending, a pending task is the stored one and
    the flag is set then; with the flag cleared no task is pending. *)
Theorem keep_alive_supervision
        (addr : string) (answers : list outcome) (cs : list call) :
  starts_once cs (init addr answers) = true ->
  let st := session cs (init addr answers) in
  (running_tasks st <= 1)%nat /\
  (is_streaming st = false -> running_tasks st = 0%nat) /\
  (forall t, tasks st !! t = Some Pending ->
             _keep_alive_task st = Some t /\ is_streaming st = true).
Proof.
  intros Hs st.
  assert (H : supervised st)
    by (apply session_supervised; [apply supervised_init | exact Hs]).
  destruct (supervised_running st H) as [H1 H0]. auto.
Qed.

Lemma keep_alive_supervision_witness :
  let st := session [CallConnect; CallStartStream 7%nat; Loop (Turn 0);
                     CallStopStream; CallStartStream 7%nat; Loop (Turn 1)]
                    (init Scenario.device []) in
  (running_tasks st <= 1)%nat /\ tasks st = [Finished ByCancellation; Pending].
Proof.
  split.
  - exact (proj1 (keep_alive_supervision Scenario.device []
             [CallConnect; CallStartStream 7%nat; Loop (Turn 0);
              CallStopStream; CallStartStream 7%nat; Loop (Turn 1)] eq_refl)).
  - reflexivity.
Defined.

Lemma bind_snd {A B} (Q : state -> Prop) (m : M A) (k : A -> M B) (st : state) :
  Q (snd (m st)) -> (forall a s, Q s -> Q (snd (k a s))) -> Q (snd (bind m k st)).
Proof.
  unfold bind. intros Hm Hk. destruct (m st) as [[a|e] s]; cbn in *; auto.
Qed.

Lemma try_except_snd {A} (Q : state -> Prop) (m : M A) (h : exn -> M A) (st : state) :
  Q (snd (m st)) -> (forall e s, Q s -> Q (snd (h e s))) ->
  Q (snd (try_except m h st)).
Proof.
  unfold try_except. intros Hm Hh. destruct (m st) as [[a|e] s]; cbn in *; auto.
Qed.

Lemma try_finally_snd {A} (body : M A) (final : M unit) (st : state) :
  snd (try_finally body final st) = snd (final (snd (body st))).
Proof.
  unfold try_finally. destruct (body st) as [r s]. cbn.
  destruct (final s) as [[u|e] s']; reflexivity.
Qed.

Lemma try_finally_returns {A} (body : M A) (final : M unit) (st : state) (a : A) :
  fst (try_finally body final st) = Return a ->
  fst (body st) = Return a /\ fst (final (snd (body st))) = Return tt.
Proof.
  unfold try_finally. destruct (body st) as [r s]. cbn.
  destruct (final s) as [[[]|e] s']; cbn; [auto | discriminate].
Qed.

Lemma disconnect_returns (st : state) :
  fst (disconnect st) = Return tt -> is_disconnected (snd (disconnect st)) = true.
Proof.
  rewrite disconnect_unfold. cbn beta.
  destruct (after_stop st) as [addr cl fl kt cb sc ts tr].
  unfold is_disconnected. unfold_co. cbn.
  destruct cl as [[[] nt au]|]; cbn; auto.
  destruct sc as [|[p|msg lost] sc]; cbn; auto; discriminate.
Qed.

(** [read_live] of __main__.py never leaves a keep-alive task behind:
    whatever the stack answers and whatever the loop runs during the
    sleep, it ends with the flag cleared and no task pending; and when it
    returns rather than raises, the link is closed. *)
Theorem read_live_cleans_up
        (addr : string) (answers : list outcome) (schedule : list loop_event) :
  let st := snd (read_live addr answers schedule) in
  running_tasks st = 0%nat /\
  is_streaming st = false /\
  (fst (read_live addr answers schedule) = Return tt -> is_disconnected st = true).
Proof.
  intros st.
  set (body := bind connect (fun _ => bind (start_stream on_data)
                                       (fun _ => sleep schedule))).
  assert (Hb : supervised (snd (body (init addr answers)))).
  { subst body. unfold bind at 1.
    destruct (connect_frame (init addr answers)) as (Et & Ef & Ek & _).
    destruct (connect (init addr answers)) as [[u|e] s1]; cbn in *.
    - apply (bind_snd supervised).
      + apply start_stream_supervised. intros t. rewrite Et. discriminate.
      + intros _ s. apply sleep_supervised.
    - apply (supervised_frame (init addr answers)); auto using supervised_init. }
  assert (E : st = snd (disconnect (snd (body (init addr answers)))))
    by apply try_finally_snd.
  destruct (disconnect_clears _ Hb) as [Hn Hf]. rewrite <- E in Hn, Hf.
  repeat split.
  - unfold running_tasks. now rewrite no_pending_filter.
  - exact Hf.
  - intros Hr. apply try_finally_returns in Hr as [_ Hd].
    rewrite E. apply disconnect_returns, Hd.
Qed.

(** [main] of examples/fetch_history.py does the same, also when
    [fetch_history] or anything before it fails. *)
Theorem fetch_history_main_cleans_up
        (answers : list outcome) (first second : list loop_event) :
  let st := snd (fetch_history_main answers first second) in
  running_tasks st = 0%nat /\
  is_streaming st = false /\
  (fst (fetch_history_main answers first second) = Return tt ->
   is_disconnected st = true).
Proof.
  intros st.
  set (inner := bind connect (fun _ => bind (start_stream on_data)
                  (fun _ => bind (sleep first)
                     (fun _ => bind fetch_history (fun _ => sleep second))))).
  set (body := try_except inner (fun _ => ret tt)).
  set (s0 := init "E4:3D:7F:05:7C:FA" answers).
  assert (Hi : supervised (snd (inner s0))).
  { subst inner. unfold bind at 1.
    destruct (connect_frame s0) as (Et & Ef & Ek & _).
    destruct (connect s0) as [[u|e] s1]; cbn in *.
    - apply (bind_snd supervised).
      + apply start_stream_supervised. intros t. rewrite Et. discriminate.
      + intros _ s Hs. apply (bind_snd supervised).
        * now apply sleep_supervised.
        * intros _ s' Hs'. apply (bind_snd supervised).
          -- destruct (fetch_history_frame s') as (Et' & Ef' & Ek').
             now apply (supervised_frame s').
          -- intros _ s''. apply sleep_supervised.
    - apply (supervised_frame s0); auto. apply supervised_init. }
  assert (Hb : supervised (snd (body s0))).
  { subst body. apply (try_except_snd supervised); [exact Hi |]. intros e s Hs. exact Hs. }
  assert (E : st = snd (disconnect (snd (body s0)))) by apply try_finally_snd.
  destruct (disconnect_clears _ Hb) as [Hn Hf]. rewrite <- E in Hn, Hf.
  repeat split.
  - unfold running_tasks. now rewrite no_pending_filter.
  - exact Hf.
  - intros Hr. apply try_finally_returns in Hr as [_ Hd].
    rewrite E. apply disconnect_returns, Hd.
Qed.
End Programs.

Section StreamingCycle.
Import Py Client Usage.

(** Start then stop.  On a connected client, when the subscription, the
    activation write and the unsubscription all complete, [start_stream]
    followed by [stop_stream] leaves the flag cleared, no stored handle,
    the new task finished by cancellation and as many tasks pending as
    before, the link up and unsubscribed; the observer stays registered. *)
Theorem start_then_stop (st : state) (cb : observer) (p1 p2 p3 : bytes) :
  connected st = true ->
  answer 0 st = Done p1 -> answer 1 st = Done p2 -> answer 2 st = Done p3 ->
  let st1 := snd (start_stream cb st) in
  let st2 := snd (stop_stream st1) in
  fst (start_stream cb st) = Return tt /\
  fst (stop_stream st1) = Return tt /\
  is_streaming st2 = false /\
  _keep_alive_task st2 = None /\
  tasks st2 = tasks st ++ [Finished ByCancellation] /\
  running_tasks st2 = running_tasks st /\
  connected st2 = true /\
  option_map notifying (client st2) = Some false /\
  _data_callback st2 = Some cb.
Proof.
  intros Hc H1 H2 H3. destruct st as [addr cl fl kt cb0 sc ts tr].
  unfold running_tasks, start_stream, stop_stream, assign_data_callback,
    assign_is_streaming, assign_keep_alive_task, create_task, cancel_and_await,
    finish, answer in *.
  unfold_co. cbn in *.
  destruct cl as [[[] nt au]|]; try discriminate.
  assert (Hl : (ts ++ [Pending]) !! length ts = Some Pending).
  { rewrite lookup_app_r by lia. now rewrite Nat.sub_diag. }
  assert (Hi : <[length ts := Finished ByCancellation]> (ts ++ [Pending])
               = ts ++ [Finished ByCancellation]).
  { rewrite insert_app_r_alt by lia. now rewrite Nat.sub_diag. }
  by_cases_on_script sc.
  all: rewrite ?Hl; cbn; rewrite ?Hi.
  all: repeat split.
  all: rewrite List.filter_app; cbn; now rewrite app_nil_r.
Qed.

Lemma start_then_stop_witness :
  let st := Scenario.authenticated_session [Done []; Done []; Done []] in
  let st2 := snd (stop_stream (snd (start_stream 7%nat st))) in
  is_streaming st2 = false /\ tasks st2 = [Finished ByCancellation] /\
  _data_callback st2 = Some 7%nat.
Proof.
  destruct (start_then_stop
              (Scenario.authenticated_session [Done []; Done []; Done []])
              7%nat [] [] [] eq_refl eq_refl eq_refl eq_refl)
    as (_ & _ & F & _ & T & _ & _ & _ & C).
  cbv zeta. split; [exact F | split; [exact T | exact C]].
Defined.

(** With the flag set and no link, a turn of the keep-alive task does
    nothing at all: no write, no exit.  The task stays pending for as long
    as nobody calls [stop_stream]. *)
Theorem keep_alive_loop_without_link (st : state) (t : nat) (n : nat) :
  is_streaming st = true -> connected st = false ->
  wake (repeat t n) st = st.
Proof.
  intros Hf Hc.
  assert (E : _keep_alive_loop t st = st).
  { unfold _keep_alive_loop. rewrite Hf, Hc.
    destruct (tasks st !! t) as [[|w]|]; reflexivity. }
  induction n as [|n IH]; [reflexivity |].
  change (wake (repeat t (S n)) st) with (wake (repeat t n) (_keep_alive_loop t st)).
  rewrite E. exact IH.
Qed.

Lemma keep_alive_loop_without_link_witness :
  wake (repeat 0%nat 5)
    (snd (read_battery (Scenario.streaming_session [Failed "Link lost" true])))
  = snd (read_battery (Scenario.streaming_session [Failed "Link lost" true])).
Proof.
  exact (keep_alive_loop_without_link
           (snd (read_battery (Scenario.streaming_session [Failed "Link lost" true])))
           0 5 eq_refl eq_refl).
Defined.

(** With the flag set and the link up, every turn whose write completes
    sends exactly one activation command without response and keeps the
    task pending. *)
Theorem keep_alive_loop_steady (st : state) (t : nat) (p : bytes) :
  tasks st !! t = Some Pending ->
  is_streaming st = true -> connected st = true -> next_answer st = Done p ->
  let st' := _keep_alive_loop t st in
  trace st' = trace st ++ [Gatt (WriteGattChar UUID_COMMAND CMD_ACTIVATE false) (Done p)] /\
  keep_alive_writes st' = S (keep_alive_writes st) /\
  tasks st' = tasks st /\ is_streaming st' = true /\
  connected st' = true /\ script st' = tl (script st).
Proof.
  intros Hp Hf Hc Ha. unfold _keep_alive_loop. rewrite Hp, Hf, Hc.
  destruct st as [addr cl fl kt cb sc ts tr].
  unfold keep_alive_writes, next_answer, answer in *. unfold_co. cbn in *.
  destruct cl as [[[] nt au]|]; try discriminate.
  destruct sc as [|[p'|msg lost] sc]; cbn in *; try discriminate.
  all: injection Ha as <-.
  all: repeat split; try assumption.
  all: rewrite List.filter_app, length_app; cbn; lia.
Qed.

Lemma keep_alive_loop_steady_witness :
  let st := Scenario.streaming_session [Done []] in
  keep_alive_writes (_keep_alive_loop 0 st) = 1%nat /\
  tasks (_keep_alive_loop 0 st) = [Pending].
Proof.
  destruct (keep_alive_loop_steady (Scenario.streaming_session [Done []]) 0 []
              eq_refl eq_refl eq_refl eq_refl) as (_ & W & T & _).
  cbv zeta. split; [exact W | exact T].
Defined.

Lemma observations_app (st : state) (evs : list event) :
  observations {| address := address st; client := client st;
                  is_streaming := is_streaming st;
                  _keep_alive_task := _keep_alive_task st;
                  _data_callback := _data_callback st;
                  script := script st; tasks := tasks st;
                  trace := trace st ++ evs |}
  = observations st ++ List.filter is_observation evs.
Proof. unfold observations. cbn. apply List.filter_app. Qed.

Lemma notification_handler_dispatched (st : state) (data : bytes) (cb : observer) :
  _data_callback st = Some cb ->
  fst (_notification_handler data st) = Return tt /\
  _data_callback (snd (_notification_handler data st)) = Some cb /\
  observations (snd (_notification_handler data st))
  = observations st ++ dispatched cb data.
Proof.
  intros Hcb. unfold _notification_handler, dispatched, LIVE_DATA_PACKET_SIZE.
  destruct (Z.eqb_spec (len data) 20) as [E|E].
  - rewrite decode_live_pm_value_20 by exact E. rewrite Hcb.
    unfold update. cbn [fst snd].
    repeat split; [exact Hcb |]. rewrite observations_emit. reflexivity.
  - destruct (20 <? len data); rewrite ?Hcb; unfold log, update; cbn [fst snd].
    + repeat split; [exact Hcb |]. rewrite observations_emit. reflexivity.
    + repeat split; [exact Hcb |]. rewrite observations_emit. reflexivity.
Qed.

(** Dispatch keeps the order of delivery and neither drops nor repeats:
    with an observer registered, delivering a list of packets calls the
    observer once for every packet of at least 20 bytes, in the order the
    packets came, and not at all for the shorter ones. *)
Theorem deliver_in_order (packets : list bytes) (st : state) (cb : observer) :
  _data_callback st = Some cb ->
  observations (deliver packets st)
  = observations st ++ concat (map (dispatched cb) packets) /\
  length (observations (deliver packets st))
  = (length (observations st)
     + length (List.filter (fun data => (20 <=? len data)%Z) packets))%nat.
Proof.
  revert st. induction packets as [|data packets IH]; intros st Hcb.
  - cbn. rewrite app_nil_r. split; [reflexivity | lia].
  - change (deliver (data :: packets) st)
      with (deliver packets (snd (_notification_handler data st))).
    destruct (notification_handler_dispatched st data cb Hcb) as (_ & Hcb' & Ho).
    destruct (IH _ Hcb') as [IH1 IH2]. split.
    + rewrite IH1, Ho. cbn [map concat]. now rewrite <- app_assoc.
    + rewrite IH2, Ho, length_app. cbn [List.filter]. unfold dispatched.
      destruct (Z.eqb_spec (len data) 20) as [E|E].
      * destruct (Z.leb_spec 20 (len data)); [cbn; lia | lia].
      * destruct (Z.ltb_spec 20 (len data)); destruct (Z.leb_spec 20 (len data));
          cbn; lia.
Qed.

Lemma deliver_in_order_witness :
  observations (deliver [Scenario.live_packet; [x00]; Scenario.history_packet]
                  (Scenario.streaming_session []))
  = [Observe 7%nat "live" (PmValue Scenario.pm_35_5);
     Observe 7%nat "history" (RawPacket Scenario.history_packet)].
Proof.
  exact (proj1 (deliver_in_order [Scenario.live_packet; [x00]; Scenario.history_packet]
                  (Scenario.streaming_session []) 7%nat eq_refl)).
Defined.
End StreamingCycle.

(** ** More on the decoders *)

Section DecodersMore.
Import Py Wire Protocol.

Lemma digits2_pos_unique (p : positive) (k : Z) :
  0 < k -> 2 ^ (k - 1) <= Zpos p < 2 ^ k -> Zpos (digits2_pos p) = k.
Proof.
  intros Hk [Hlo Hhi]. pose proof (digits2_pos_bounds p) as [Dlo Dhi].
  set (d := Zpos (digits2_pos p)) in *.
  assert (Hd : 0 < d) by (subst d; lia).
  assert (H1 : d - 1 < k).
  { apply (Z.pow_lt_mono_r_iff 2); lia. }
  assert (H2 : k - 1 < d).
  { apply (Z.pow_lt_mono_r_iff 2); lia. }
  lia.
Qed.

(** Whatever the 32 bits, the decoded float is one binary32 can hold. *)
Lemma binary32_of_bits_valid (x : Z) : is_binary32 (binary32_of_bits x) = true.
Proof.
  unfold binary32_of_bits.
  set (e := Z.land (Z.shiftr x 23) 255). set (m := Z.land x (2 ^ 23 - 1)).
  assert (He : 0 <= e < 256).
  { subst e. change 255 with (Z.ones 8). rewrite Z.land_ones by lia.
    apply Z.mod_pos_bound. lia. }
  assert (Hm : 0 <= m < 2 ^ 23).
  { subst m. change (2 ^ 23 - 1) with (Z.ones 23). rewrite Z.land_ones by lia.
    apply Z.mod_pos_bound. lia. }
  destruct (Z.eqb_spec e 0) as [E0|E0].
  - destruct m as [|p|p] eqn:Em; try reflexivity.
    cbn [is_binary32 valid_binary]. unfold bounded, canonical_mantissa, fexp, emin,
      prec32, emax32.
    pose proof (digits2_pos_bounds p) as [Dlo Dhi].
    set (d := Zpos (digits2_pos p)) in *.
    assert (Hd : 0 < d) by (subst d; lia).
    assert (d - 1 < 23) by (apply (Z.pow_lt_mono_r_iff 2); lia).
    apply andb_true_iff. split; [apply Z.eqb_eq | apply Z.leb_le]; lia.
  - destruct (Z.eqb_spec e 255) as [E1|E1]; [destruct m; reflexivity |].
    destruct (m + 2 ^ 23) as [|p|p] eqn:Em; try reflexivity.
    cbn [is_binary32 valid_binary]. unfold bounded, canonical_mantissa, fexp, emin,
      prec32, emax32.
    assert (Hp : Zpos (digits2_pos p) = 24).
    { apply digits2_pos_unique; [lia |]. change (24 - 1) with 23.
      change (2 ^ 24) with (2 * 2 ^ 23). lia. }
    rewrite Hp. apply andb_true_iff. split; [apply Z.eqb_eq | apply Z.leb_le]; lia.
Qed.

Lemma byte_val_inj (a b : byte) : byte_val a = byte_val b -> a = b.
Proof.
  unfold byte_val. intros H. apply N2Z.inj in H.
  pose proof (Byte.of_to_N a) as Ha. pose proof (Byte.of_to_N b) as Hb.
  rewrite H in Ha. congruence.
Qed.

Lemma le_value_inj (u w : bytes) :
  length u = length w -> le_value u = le_value w -> u = w.
Proof.
  revert w. induction u as [|a u IH]; intros [|b w] Hl Hv; try discriminate;
    [reflexivity |].
  cbn in *. pose proof (byte_val_range a). pose proof (byte_val_range b).
  assert (byte_val a = byte_val b /\ le_value u = le_value w) as [Ea Eu] by lia.
  f_equal; [now apply byte_val_inj | apply IH; [lia | exact Eu]].
Qed.

Lemma u32_le_le_value (w : bytes) : length w = 4%nat -> u32_le (le_value w) = w.
Proof.
  intros Hw. apply le_value_inj; [now rewrite Hw |].
  apply le_value_u32_le. pose proof (le_value_range w) as Hr. rewrite Hw in Hr.
  exact Hr.
Qed.

(** Encoding what was decoded gives the pattern back, NaNs apart. *)
Lemma bits_of_binary32_of_bits (x : Z) :
  0 <= x < 2 ^ 32 -> binary32_of_bits x <> S754_nan ->
  bits_of_binary32 (binary32_of_bits x) = x.
Proof.
  intros Hx. unfold binary32_of_bits.
  set (e := Z.land (Z.shiftr x 23) 255). set (m := Z.land x (2 ^ 23 - 1)).
  assert (Ee : e = (x / 2 ^ 23) mod 2 ^ 8).
  { subst e. change 255 with (Z.ones 8).
    now rewrite Z.land_ones, Z.shiftr_div_pow2 by lia. }
  assert (Em : m = x mod 2 ^ 23).
  { subst m. change (2 ^ 23 - 1) with (Z.ones 23). now rewrite Z.land_ones by lia. }
  assert (Es : Z.b2z (Z.testbit x 31) = (x / 2 ^ 31) mod 2)
    by (apply Z.testbit_spec'; lia).
  assert (Hsum : x = sign_bit (Z.testbit x 31) + e * 2 ^ 23 + m).
  { unfold sign_bit. rewrite Ee, Em.
    change (2 ^ 23) with 8388608. change (2 ^ 8) with 256.
    change (2 ^ 31) with 2147483648 in *. change (2 ^ 32) with 4294967296 in Hx.
    destruct (Z.testbit x 31); cbn [Z.b2z] in Es; Z.div_mod_to_equations; lia. }
  assert (He : 0 <= e < 256) by (rewrite Ee; apply Z.mod_pos_bound; lia).
  assert (Hm : 0 <= m < 2 ^ 23) by (rewrite Em; apply Z.mod_pos_bound; lia).
  clearbody e m. clear Ee Em Es.
  destruct (Z.eqb_spec e 0) as [E0|E0].
  - subst e. destruct m as [|p|p]; intros _; cbn [bits_of_binary32]; try lia.
    destruct (Z.ltb_spec (Zpos p) (2 ^ 23)); lia.
  - destruct (Z.eqb_spec e 255) as [E1|E1].
    + subst e. destruct m as [|p|p]; intros Hn; cbn [bits_of_binary32];
        try contradiction; lia.
    + destruct (m + 2 ^ 23) as [|p|p] eqn:Ep; intros Hn; try lia.
      cbn [bits_of_binary32].
      destruct (Z.ltb_spec (Zpos p) (2 ^ 23)); lia.
Qed.

(** Every reading [decode_live_pm_value] returns is a float binary32
    can hold; it is decided by the bytes at offsets 8 to 11 alone; and it
    loses nothing: encoding a reading that is not a NaN gives exactly
    those four bytes back. *)
Theorem decode_live_pm_value_faithful (data other : bytes) (v : spec_float) :
  decode_live_pm_value data = Return (Some v) ->
  is_binary32 v = true /\
  (len other = 20 -> slice other 8 12 = slice data 8 12 ->
   decode_live_pm_value other = Return (Some v)) /\
  (v <> S754_nan -> float32_le v = slice data 8 12).
Proof.
  intros Hd.
  assert (Hl : len data = 20).
  { destruct (Z.eq_dec (len data) 20) as [E|E]; [exact E |].
    unfold decode_live_pm_value in Hd.
    destruct (Z.eqb_spec (len data) 20); [contradiction | discriminate]. }
  rewrite decode_live_pm_value_20 in Hd by exact Hl. injection Hd as <-.
  assert (H4 : length (slice data 8 12) = 4%nat).
  { pose proof (slice_length data 8 12) as H. unfold len in Hl. lia. }
  split; [apply binary32_of_bits_valid | split].
  - intros Ho Hs. rewrite decode_live_pm_value_20 by exact Ho. now rewrite Hs.
  - intros Hn. unfold float32_le.
    rewrite bits_of_binary32_of_bits; [now apply u32_le_le_value | | exact Hn].
    pose proof (le_value_range (slice data 8 12)) as Hr. rewrite H4 in Hr. exact Hr.
Qed.

Lemma decode_live_pm_value_faithful_witness :
  is_binary32 Scenario.pm_35_5 = true /\
  float32_le Scenario.pm_35_5 = slice Scenario.live_packet 8 12.
Proof.
  destruct (decode_live_pm_value_faithful Scenario.live_packet Scenario.live_packet
              Scenario.pm_35_5 eq_refl) as (V & _ & R).
  split; [exact V | apply R; discriminate].
Defined.

Section AnyHostMore.
Variable datetime : Type.
Variable fromtimestamp : Z -> result datetime.

(** The only exceptions [decode_history_timestamp] lets out are those of
    the host's conversion, and of those neither [ValueError] nor
    [OSError] (nor [struct.error]): when it raises [e], four bytes were
    read and the conversion of their value raised [e]. *)
Theorem decode_history_timestamp_raises (data : bytes) (offset : Z) (e : exn) :
  decode_history_timestamp datetime fromtimestamp data offset = Raise e ->
  length (slice data offset (offset + 4)) = 4%nat /\
  fromtimestamp (le_value (slice data offset (offset + 4))) = Raise e /\
  e <> StructError /\ e <> ValueError /\ e <> OSError.
Proof.
  unfold decode_history_timestamp, unpack_I.
  destruct (len data <? offset + 4); [discriminate |].
  destruct (Nat.eqb_spec (length (slice data offset (offset + 4))) 4) as [E|E];
    [| discriminate].
  destruct (fromtimestamp _) as [dt|e'] eqn:Eh; [discriminate |].
  destruct e'; try discriminate; intros [= <-]; repeat split;
    first [exact E | reflexivity | discriminate].
Qed.

(** A negative offset counts from the end, as slices do, but only from
    -5 down: with at least [-offset] bytes the result is that of the
    offset [len data + offset]; with -4 to -1 the result is [None] even
    though four bytes may be there. *)
Theorem decode_history_timestamp_from_the_end (data : bytes) (offset : Z) :
  (- len data <= offset <= -5 ->
   decode_history_timestamp datetime fromtimestamp data offset
   = decode_history_timestamp datetime fromtimestamp data (len data + offset)) /\
  (-4 <= offset < 0 ->
   decode_history_timestamp datetime fromtimestamp data offset = Return None).
Proof.
  split.
  - intros Ho. unfold decode_history_timestamp, len in *.
    set (n := Z.of_nat (length data)) in *.
    destruct (Z.ltb_spec n (offset + 4)) as [H|_]; [lia |].
    destruct (Z.ltb_spec n (n + offset + 4)) as [H|_]; [lia |].
    assert (Es : slice data offset (offset + 4)
                 = slice data (n + offset) (n + offset + 4)).
    { unfold slice, adjust_index. fold n.
      destruct (Z.ltb_spec offset 0); [| lia].
      destruct (Z.ltb_spec (offset + 4) 0); [| lia].
      destruct (Z.ltb_spec (n + offset) 0); [lia |].
      destruct (Z.ltb_spec (n + offset + 4) 0); [lia |].
      rewrite !Z.max_l, !Z.min_l by lia.
      replace (offset + 4 + n) with (n + offset + 4) by lia.
      replace (offset + n) with (n + offset) by lia. reflexivity. }
    now rewrite Es.
  - intros Ho. apply decode_history_timestamp_short_slice.
    unfold slice, adjust_index.
    destruct (Z.ltb_spec offset 0) as [_|Hn]; [| lia].
    destruct (Z.ltb_spec (offset + 4) 0) as [Hn|_]; [lia |].
    rewrite length_take, length_drop. lia.
Qed.
End AnyHostMore.

Lemma decode_history_timestamp_raises_witness :
  Scenario.time32_fromtimestamp (le_value (slice [xff; xff; xff; xff] 0 (0 + 4)))
  = Raise OverflowError.
Proof.
  exact (proj1 (proj2 (decode_history_timestamp_raises Z Scenario.time32_fromtimestamp
           [xff; xff; xff; xff] 0 OverflowError eq_refl))).
Defined.

Lemma decode_history_timestamp_from_the_end_witness :
  decode_history_timestamp Z Scenario.utc_fromtimestamp Scenario.ten_bytes (-8)
  = decode_history_timestamp Z Scenario.utc_fromtimestamp Scenario.ten_bytes 2 /\
  decode_history_timestamp Z Scenario.utc_fromtimestamp Scenario.ten_bytes (-4)
  = Return None.
Proof.
  split.
  - apply (proj1 (decode_history_timestamp_from_the_end Z Scenario.utc_fromtimestamp
                    Scenario.ten_bytes (-8))). vm_compute. split; discriminate.
  - apply (proj2 (decode_history_timestamp_from_the_end Z Scenario.utc_fromtimestamp
                    Scenario.ten_bytes (-4))). lia.
Defined.
End DecodersMore.

(** ** The offline decoder of tools/data_decoder.py *)

Section ToolFacts.
Import Py Wire Protocol Tools.

Lemma hex_byte_digits (b : byte) (position : nat) (rest : list ascii) :
  fromhex_from position (hex_byte b ++ rest)
  = match fromhex_from (S (S position)) rest with
    | Ok bs => Ok (b :: bs)
    | Fail f => Fail f
    end.
Proof. destruct b; reflexivity. Qed.

Lemma hex_byte_ascii (b : byte) (position : nat) (rest : list ascii) :
  first_non_ascii position (hex_byte b ++ rest)
  = first_non_ascii (S (S position)) rest.
Proof. destruct b; reflexivity. Qed.

Lemma fromhex_from_hex (data : bytes) (position : nat) :
  fromhex_from position (flat_map hex_byte data) = Ok data.
Proof.
  revert position. induction data as [|b data IH]; intros position; [reflexivity |].
  cbn [flat_map]. rewrite hex_byte_digits, IH. reflexivity.
Qed.

Lemma first_non_ascii_hex (data : bytes) (position : nat) :
  first_non_ascii position (flat_map hex_byte data) = None.
Proof.
  revert position. induction data as [|b data IH]; intros position; [reflexivity |].
  cbn [flat_map]. rewrite hex_byte_ascii. apply IH.
Qed.

(** Reading back what [hex] wrote. *)
Lemma fromhex_hex (data : bytes) : fromhex (hex data) = Ok data.
Proof.
  unfold fromhex, hex. rewrite list_ascii_of_string_of_list_ascii.
  rewrite first_non_ascii_hex. apply fromhex_from_hex.
Qed.

Lemma drop_hex (data : bytes) (a : nat) :
  drop (2 * a) (flat_map hex_byte data) = flat_map hex_byte (drop a data).
Proof.
  revert data. induction a as [|a IH]; intros data; [reflexivity |].
  destruct data as [|b data]; [reflexivity |].
  replace (2 * S a)%nat with (S (S (2 * a))) by lia. cbn. apply IH.
Qed.

Lemma take_hex (data : bytes) (k : nat) :
  take (2 * k) (flat_map hex_byte data) = flat_map hex_byte (take k data).
Proof.
  revert data. induction k as [|k IH]; intros data; [reflexivity |].
  destruct data as [|b data]; [reflexivity |].
  replace (2 * S k)%nat with (S (S (2 * k))) by lia. cbn. now rewrite IH.
Qed.

Lemma length_hex (data : bytes) :
  length (flat_map hex_byte data) = (2 * length data)%nat.
Proof. induction data as [|b data IH]; cbn; lia. Qed.

Lemma string_length_of_list (l : list ascii) :
  String.length (string_of_list_ascii l) = length l.
Proof. induction l as [|c l IH]; cbn; congruence. Qed.

(** A slice of the hex text at even positions is the hex of the slice. *)
Lemma str_slice_hex (data : bytes) (a b : Z) :
  0 <= a <= b -> b <= len data ->
  str_slice (hex data) (2 * a) (2 * b) = hex (slice data a b).
Proof.
  intros Hab Hb. unfold str_slice, hex, slice, adjust_index, len in *.
  rewrite list_ascii_of_string_of_list_ascii, length_hex.
  destruct (Z.ltb_spec (2 * a) 0); [lia |]. destruct (Z.ltb_spec (2 * b) 0); [lia |].
  destruct (Z.ltb_spec a 0); [lia |]. destruct (Z.ltb_spec b 0); [lia |].
  rewrite !Z.min_l by lia.
  replace (Z.to_nat (2 * b - 2 * a)) with (2 * Z.to_nat (b - a))%nat by lia.
  replace (Z.to_nat (2 * a)) with (2 * Z.to_nat a)%nat by lia.
  now rewrite drop_hex, take_hex.
Qed.

(** [hex_to_float] on the hex of four bytes gives the binary32 float of
    those bytes in the order asked for, and so it reads back what
    [float32_le] wrote; on the hex of any other number of bytes it fails
    with the [struct.error]. *)
Theorem hex_to_float_hex (w : bytes) (f : spec_float) :
  (length w = 4%nat ->
   hex_to_float (hex w) LittleEndian = Ok (binary32_of_bits (le_value w)) /\
   hex_to_float (hex w) BigEndian = Ok (binary32_of_bits (le_value (rev w)))) /\
  (length w <> 4%nat ->
   hex_to_float (hex w) LittleEndian = Fail ShortBuffer /\
   hex_to_float (hex w) BigEndian = Fail ShortBuffer) /\
  (is_binary32 f = true -> hex_to_float (hex (float32_le f)) LittleEndian = Ok f).
Proof.
  unfold hex_to_float, unpack_float. split; [| split].
  - intros Hw. rewrite fromhex_hex, Hw. split; reflexivity.
  - intros Hw. rewrite fromhex_hex.
    destruct (Nat.eqb_spec (length w) 4); [contradiction | split; reflexivity].
  - intros Hf. rewrite fromhex_hex. cbn [length float32_le u32_le Nat.eqb].
    unfold float32_le. rewrite le_value_u32_le by now apply bits_of_binary32_range.
    now rewrite binary32_of_bits_of_binary32.
Qed.

Lemma hex_to_float_hex_witness :
  hex_to_float "00000e42" LittleEndian = Ok Scenario.pm_35_5 /\
  hex_to_float "420e0000" BigEndian = Ok Scenario.pm_35_5 /\
  hex_to_float "0e42" LittleEndian = Fail ShortBuffer.
Proof.
  split; [| split].
  - exact (proj2 (proj2 (hex_to_float_hex [] Scenario.pm_35_5)) eq_refl).
  - exact (proj2 (proj1 (hex_to_float_hex [x42; x0e; x00; x00] S754_nan) eq_refl)).
  - apply (proj1 (proj2 (hex_to_float_hex [x0e; x42] S754_nan))). discriminate.
Defined.

(** [decode_20_byte_payload] on the hex of a 20-byte packet never
    reports an error: the counter is the little-endian value of bytes 1 to
    4 and the float is that of bytes 9 to 12, one byte further on than the
    bytes 8 to 11 [decode_live_pm_value] reads, so the tool's float is the
    library's reading of the packet moved up by one byte. *)
Theorem decode_20_byte_payload_hex (data : bytes) (b : byte) :
  length data = 20%nat ->
  decode_20_byte_payload (hex data)
  = [("timestamp_counter", VInt (le_value (slice data 1 5)));
     ("raw_value_2_hex", VStr (hex (slice data 9 13)));
     ("decoded_float_2", VFloat (binary32_of_bits (le_value (slice data 9 13))));
     ("raw_payload", VStr (hex data))]%string /\
  decode_live_pm_value (drop 1 data ++ [b])
  = Return (Some (binary32_of_bits (le_value (slice data 9 13)))).
Proof.
  intros Hl. split.
  - unfold decode_20_byte_payload.
    assert (H40 : String.length (hex data) = 40%nat)
      by (unfold hex; rewrite string_length_of_list, length_hex; lia).
    rewrite H40. cbn [Nat.eqb negb].
    change (str_slice (hex data) 18 26) with (str_slice (hex data) (2 * 9) (2 * 13)).
    change (str_slice (hex data) 2 10) with (str_slice (hex data) (2 * 1) (2 * 5)).
    rewrite !str_slice_hex by (unfold len; lia).
    unfold hex_to_float, unpack_float. rewrite !fromhex_hex.
    assert (H1 : length (slice data 1 5) = 4%nat)
      by (pose proof (slice_length data 1 5); lia).
    assert (H9 : length (slice data 9 13) = 4%nat)
      by (pose proof (slice_length data 9 13); lia).
    rewrite H1, H9. reflexivity.
  - rewrite decode_live_pm_value_20
      by (unfold len; rewrite length_app, length_drop, Hl; reflexivity).
    do 21 (destruct data as [|? data]; try discriminate). reflexivity.
Qed.

Lemma decode_20_byte_payload_hex_witness :
  get "decoded_float_2"
      (decode_20_byte_payload (hex (x00 :: removelast Scenario.live_packet)))
  = Some (VFloat Scenario.pm_35_5).
Proof.
  rewrite (proj1 (decode_20_byte_payload_hex
             (x00 :: removelast Scenario.live_packet) x00 eq_refl)).
  reflexivity.
Defined.

(** A payload that is not 40 characters long is refused with the
    payload handed back; and whatever the payload, the result is either an
    error entry with the payload under ["raw"], or the four decoded
    fields with the payload under ["raw_payload"], never a mix. *)
Theorem decode_20_byte_payload_shape (hex_payload : string) :
  (String.length hex_payload <> 40%nat ->
   decode_20_byte_payload hex_payload
   = [("error", VStr "Invalid payload length"); ("raw", VStr hex_payload)]%string) /\
  ((exists msg, decode_20_byte_payload hex_payload
                = [("error", VStr msg); ("raw", VStr hex_payload)]%string) \/
   (exists n x, decode_20_byte_payload hex_payload
                = [("timestamp_counter", VInt n);
                   ("raw_value_2_hex", VStr (str_slice hex_payload 18 26));
                   ("decoded_float_2", VFloat x);
                   ("raw_payload", VStr hex_payload)]%string /\
                0 <= n < 2 ^ 32 /\ is_binary32 x = true)).
Proof.
  unfold decode_20_byte_payload, decoding_failed, hex_to_float, unpack_float. split.
  - intros H. destruct (Nat.eqb_spec (String.length hex_payload) 40);
      [contradiction | reflexivity].
  - destruct (String.length hex_payload =? 40)%nat; cbn [negb]; [| eauto].
    destruct (fromhex (str_slice hex_payload 18 26)) as [w|f]; [| eauto].
    destruct (length w =? 4)%nat; [| eauto].
    destruct (fromhex (str_slice hex_payload 2 10)) as [u|f]; [| eauto].
    destruct (Nat.eqb_spec (length u) 4) as [Hu|Hu]; [| eauto].
    right. do 2 eexists. split; [reflexivity | split].
    + pose proof (le_value_range u) as Hr. rewrite Hu in Hr. exact Hr.
    + apply binary32_of_bits_valid.
Qed.

Lemma decode_20_byte_payload_shape_witness :
  decode_20_byte_payload "0e42"
  = [("error", VStr "Invalid payload length"); ("raw", VStr "0e42")]%string.
Proof.
  apply (proj1 (decode_20_byte_payload_shape "0e42")). discriminate.
Defined.
End ToolFacts.

Section ProgramRuns.
Import Py Client Usage.

Lemma read_live_cleans_up_witness :
  fst (read_live Scenario.device []
         [Turn 0; Notification Scenario.live_packet; Turn 0]) = Return tt /\
  is_disconnected (snd (read_live Scenario.device []
         [Turn 0; Notification Scenario.live_packet; Turn 0])) = true.
Proof.
  split; [reflexivity |].
  exact (proj2 (proj2 (read_live_cleans_up Scenario.device []
           [Turn 0; Notification Scenario.live_packet; Turn 0])) eq_refl).
Defined.

Lemma fetch_history_main_cleans_up_witness :
  is_disconnected (snd (fetch_history_main [] [Turn 0]
                          [Notification Scenario.history_packet])) = true.
Proof.
  exact (proj2 (proj2 (fetch_history_main_cleans_up [] [Turn 0]
           [Notification Scenario.history_packet])) eq_refl).
Defined.
End ProgramRuns.

Section TeardownMore.
Import Py Client Usage.

Lemma stop_stream_gatt (st : state) :
  gatt_calls (snd (stop_stream st))
  = gatt_calls st
      ++ (if is_streaming st && connected st
          then [Gatt (StopNotify UUID_DATA) (next_answer st)] else []) /\
  script (snd (stop_stream st))
  = (if is_streaming st && connected st then tl (script st) else script st) /\
  connected (snd (stop_stream st))
  = connected st
    && negb (is_streaming st
             && match next_answer st with Failed _ lost => lost | Done _ => false end).
Proof.
  destruct st as [addr cl fl kt cb sc ts tr].
  unfold gatt_calls, stop_stream, assign_is_streaming, assign_keep_alive_task,
    cancel_and_await, finish, next_answer, answer.
  unfold_co. cbn.
  destruct fl; cbn; [| rewrite app_nil_r, andb_true_r; auto].
  destruct kt as [t|]; cbn;
    [destruct (ts !! t) as [[|w]|]; cbn |];
    destruct cl as [[[] nt au]|]; cbn;
    try (destruct sc as [|[p|msg [|]] sc]; cbn);
    rewrite ?List.filter_app; cbn; rewrite <- ?app_assoc, ?app_nil_r; cbn; auto.
Qed.

(** [stop_stream] asks the stack for one thing at most: an unsubscribe,
    and only when the flag is set and the link is up.  On a link that is
    already down it takes back the flag and the task without touching the
    stack. *)
Theorem stop_stream_transport (st : state) :
  (is_streaming st = true -> connected st = true ->
   gatt_calls (snd (stop_stream st))
   = gatt_calls st ++ [Gatt (StopNotify UUID_DATA) (next_answer st)]) /\
  (is_streaming st = false \/ connected st = false ->
   gatt_calls (snd (stop_stream st)) = gatt_calls st /\
   script (snd (stop_stream st)) = script st /\
   is_streaming (snd (stop_stream st)) = false /\
   _keep_alive_task (snd (stop_stream st))
   = (if is_streaming st then None else _keep_alive_task st)).
Proof.
  destruct (stop_stream_gatt st) as (Hg & Hs & _). split.
  - intros Hf Hc. now rewrite Hg, Hf, Hc.
  - intros H.
    assert (E : is_streaming st && connected st = false)
      by (destruct H as [-> | ->]; [reflexivity | apply andb_false_r]).
    rewrite Hg, Hs, E, app_nil_r. repeat split.
    + destruct (stop_stream_returns st) as (st' & -> & Hf). exact Hf.
    + destruct st as [addr cl fl kt cb sc ts tr].
      unfold stop_stream, assign_is_streaming, assign_keep_alive_task,
        cancel_and_await, finish.
      unfold_co. cbn in *.
      destruct fl; cbn; [| reflexivity].
      destruct kt as [t|]; cbn;
        [destruct (ts !! t) as [[|w]|]; cbn |];
        destruct cl as [[[] nt au]|]; cbn in *; try discriminate; reflexivity.
Qed.

Lemma stop_stream_transport_witness :
  let down := snd (read_battery (Scenario.streaming_session [Failed "Link lost" true])) in
  gatt_calls (snd (stop_stream down)) = gatt_calls down /\
  is_streaming (snd (stop_stream down)) = false.
Proof.
  destruct (proj2 (stop_stream_transport
              (snd (read_battery (Scenario.streaming_session [Failed "Link lost" true]))))
              (or_intror eq_refl)) as (G & _ & F & _).
  cbv zeta. split; [exact G | exact F].
Defined.

(** After a [disconnect] that returned, the client is at rest: a second
    [disconnect] and a [stop_stream] change nothing and return, and
    [read_battery], [start_stream] and [fetch_history] raise
    [NotConnectedError] without changing anything, until [connect] is
    called again. *)
Theorem disconnect_then (st : state) (cb : observer) :
  fst (disconnect st) = Return tt ->
  let st' := snd (disconnect st) in
  disconnect st' = (Return tt, st') /\
  stop_stream st' = (Return tt, st') /\
  read_battery st' = (Raise NotConnectedError, st') /\
  start_stream cb st' = (Raise NotConnectedError, st') /\
  fetch_history st' = (Raise NotConnectedError, st').
Proof.
  intros Hr st'.
  assert (Hd : connected st' = false).
  { pose proof (disconnect_returns st Hr) as H. unfold is_disconnected in H.
    subst st'. now destruct (connected (snd (disconnect st))). }
  assert (Hf : is_streaming st' = false).
  { subst st'. destruct (disconnect_tasks st) as (_ & -> & _).
    unfold after_stop. destruct (is_streaming st) eqn:E; [| exact E].
    destruct (stop_stream_returns st) as (s & -> & Hs). exact Hs. }
  clearbody st'. repeat split.
  - rewrite disconnect_unfold. unfold after_stop. rewrite Hf. cbn beta.
    now rewrite Hd.
  - unfold stop_stream. now rewrite Hf.
  - unfold read_battery. now rewrite Hd.
  - unfold start_stream. now rewrite Hd.
  - unfold fetch_history. now rewrite Hd.
Qed.

Lemma disconnect_then_witness :
  let st' := snd (disconnect (Scenario.streaming_session [Done []; Done []])) in
  disconnect st' = (Return tt, st') /\
  start_stream 7%nat st' = (Raise NotConnectedError, st').
Proof.
  destruct (disconnect_then (Scenario.streaming_session [Done []; Done []]) 7%nat eq_refl)
    as (D & _ & _ & S & _).
  cbv zeta. split; [exact D | exact S].
Defined.
End TeardownMore.
